(** * gorip: the request dispatcher of the REST server (server.go)

    A shallow embedding of [Server.ServeHTTP] and
    [Server.renderResourceResult], and the properties of the dispatch
    pipeline that the specification states about them.

    The router, the endpoint, the header parsers and the query-parameter
    kinds live in other files of the package; the dispatcher only calls
    them, so they enter this development as the operations of the class
    [Package].  [log.Printf] output (the diagnostics sink) and the request
    timing are not part of the modelled state. *)

From Stdlib Require Import ZArith Ascii String.
From stdpp Require Import base option list gmap strings pretty.

Local Open Scope Z_scope.

(** ** net/http, net/url and bytes *)

(** [http.Header] and [url.Values] are both [map[string][]string]. *)
Abbreviation MultiMap := (gmap string (list string)).

(** [Header.Get] / [Values.Get]: the first value stored under the key, the
    empty string when there is none. *)
Definition Get (m : MultiMap) (key : string) : string :=
  match m !! key with
  | Some (v :: _) => v
  | _ => ""%string
  end.

(** [Header.Set] replaces the values of the key by the single value. *)
Definition Set_ (m : MultiMap) (key value : string) : MultiMap :=
  <[key := [value]]> m.

(** [Header.Add] appends the value to those of the key. *)
Definition Add (m : MultiMap) (key value : string) : MultiMap :=
  <[key := default [] (m !! key) ++ [value]]> m.

(** What the dispatcher has done to its [http.ResponseWriter]: the header
    map, the status codes [WriteHeader] has accepted, in order, and the
    bytes handed to [Write]. *)
Record ResponseWriter := {
  wHeader : MultiMap;
  wStatus : list Z;
  wBody : string
}.

Definition newResponseWriter : ResponseWriter :=
  {| wHeader := ∅; wStatus := []; wBody := "" |}.

(** [checkWriteHeaderCode] of net/http: a status code has three digits. *)
Definition checkWriteHeaderCode (code : Z) : bool :=
  (100 <=? code) && (code <=? 999).

(** [ResponseWriter.WriteHeader]: the writer of net/http panics on a code
    that [checkWriteHeaderCode] refuses, before anything is written;
    [None] is that panic. *)
Definition WriteHeader (w : ResponseWriter) (code : Z) : option ResponseWriter :=
  if checkWriteHeaderCode code
  then Some {| wHeader := wHeader w; wStatus := wStatus w ++ [code];
               wBody := wBody w |}
  else None.

(** [Buffer.WriteTo(writer)] hands the unread bytes of the buffer to the
    [Write] of the writer.  An error of [Write] (net/http returns one for
    a body under a status that allows none) is only logged by
    [renderResourceResult]; the bytes handed over are recorded. *)
Definition WriteTo (w : ResponseWriter) (p : string) : ResponseWriter :=
  {| wHeader := wHeader w; wStatus := wStatus w; wBody := wBody w +:+ p |}.

Definition withHeader (w : ResponseWriter) (h : MultiMap) : ResponseWriter :=
  {| wHeader := h; wStatus := wStatus w; wBody := wBody w |}.

Definition StatusBadRequest : Z := 400.
Definition StatusInternalServerError : Z := 500.

(** [strconv.Itoa] *)
Definition Itoa (n : Z) : string := pretty n.

(** [Buffer.Len]: the number of unread bytes of a buffer. *)
Definition Len (b : string) : Z := Z.of_nat (String.length b).

(** ** The package's request-time data *)

(** A [*bytes.Buffer] is [None] for nil, otherwise its unread bytes. *)
Record ResourceHandlerResult := {
  HttpStatus : Z;
  Body : option string
}.

Record ResourceHandlerContext := {
  RouteVariables : gmap string string;
  Header : MultiMap;
  RequestId : option string;
  ContentTypeIn : option string;
  ContentTypeOut : option string;
  ctxBody : option string;
  QueryParameters : gmap string string
}.

(** The interface [QueryParameterFormatValidator]. *)
Record QueryParameterFormatValidator := {
  IsValid : string -> bool;
  GetErrorMessage : string
}.

Record QueryParameter := {
  Kind : string;
  DefaultValue : string;
  FormatValidator : option QueryParameterFormatValidator
}.

(** The [Implementation] of a handler is an interface value: a reference
    to an object that the registration created once and that every request
    served by this handler reaches again. *)
Definition loc := positive.

Record ResourceHandler := {
  rhQueryParameters : gmap string QueryParameter;
  Implementation : loc
}.

Record Request := {
  Method : string;
  URL_Path : string;
  URL_Query : MultiMap;
  reqHeader : MultiMap;
  (** the outcome of [ioutil.ReadAll(request.Body)] *)
  reqBody : string * option string
}.

(** ** renderResourceResult (server.go, 328-353)

    The value is the writer as the call leaves it, also when the call
    ends in the panic of [WriteHeader] at line 341: the headers are set
    by then, and neither a status nor a body is written.  Whether the
    call has panicked is [checkWriteHeaderCode] of the status of the
    result, see [render]. *)

Definition renderResourceResult (w : ResponseWriter)
    (result : ResourceHandlerResult) (contentType requestId : string)
    : ResponseWriter :=
  let bodyOutLen := match Body result with
                    | Some b => Len b
                    | None => 0
                    end in
  let w := withHeader w (Set_ (wHeader w) "Content-Length" (Itoa bodyOutLen)) in
  let w := if 0 <? bodyOutLen
           then withHeader w (Add (wHeader w) "Content-Type" contentType)
           else w in
  match WriteHeader w (HttpStatus result) with
  | None => w
  | Some w =>
      if 0 <? bodyOutLen
      then WriteTo w (default ""%string (Body result))
      else w
  end.

(** ** The rest of the package, as the dispatcher sees it

    [FindNodeByRoute], [GetEndpoint], [GetResourceHandlers],
    [FindMatchingResource], the two header parsers and [IsValidType] are
    defined in router.go, endpoint.go and the parser files; [Execute] is
    the user's implementation of a handler; [serveDocumentation] renders
    the documentation payload.  A Go [error] is [None] for nil, otherwise
    its message.  [rangeOrder] is the order in which one [range] over a
    map visits its entries, which the language leaves open. *)
Class Package := {
  router : Type;
  node : Type;
  endpoint : Type;
  contentTypeHeaderParser : Type;
  acceptHeaderParser : Type;
  time_Time : Type;
  ImplState : Type;
  zeroTime : time_Time;
  FindNodeByRoute :
    router -> string -> option node * gmap string string * option string;
  GetEndpoint : node -> option endpoint;
  GetResourceHandlers : endpoint -> list ResourceHandler;
  FindMatchingResource :
    endpoint -> string -> contentTypeHeaderParser -> acceptHeaderParser ->
    option ResourceHandler * option string * option string;
  newContentTypeHeaderParser : string -> contentTypeHeaderParser * option string;
  newAcceptHeaderParser : string -> acceptHeaderParser * option string;
  HasAcceptElement : acceptHeaderParser -> bool;
  IsValidType : QueryParameter -> string -> bool;
  Execute :
    ImplState -> ResourceHandlerContext ->
    ResourceHandlerResult * ImplState * ResourceHandlerContext;
  sha1Base64 : string -> string;
  time_String : time_Time -> string;
  serveDocumentation : ResponseWriter -> ResponseWriter;
  rangeOrder : gmap string QueryParameter -> list (string * QueryParameter);
  rangeOrder_perm : forall m, rangeOrder m ≡ₚ map_to_list m
}.

Record Server `{Package} := {
  pattern : string;
  address : string;
  router_ : router;
  documentationEndpointEnabled : bool;
  documentationEndpointUrl : string;
  debugEnableLogRequestDump : bool;
  debugEnableLogRequestIdentifier : bool;
  debugEnableLogRequestDuration : bool
}.

(** The calls the dispatcher makes on its collaborators, as they happen. *)
Inductive Call :=
  | CallServeDocumentation
  | CallFindNodeByRoute (urlPath : string)
  | CallGetEndpoint
  | CallNewContentTypeHeaderParser (header : string)
  | CallNewAcceptHeaderParser (header : string)
  | CallHasAcceptElement
  | CallGetResourceHandlers
  | CallFindMatchingResource (method : string)
  | CallReadAll
  | CallIsValidType (qpKey qpValue : string)
  | CallIsValid (qpKey qpValue : string)
  | CallGetErrorMessage (qpKey : string)
  | CallExecute (impl : loc) (context : ResourceHandlerContext).

(** The [return] statements of [ServeHTTP], in source order (the line of
    the [return] in server.go), the end of the function body, and the places
    where the body can panic. *)
Inductive Exit :=
  | ExitDocumentation            (* 151 *)
  | ExitRouteError               (* 160 *)
  | ExitRouteNotFound            (* 168 *)
  | ExitNoEndpoint               (* 186 *)
  | ExitInvalidContentType       (* 196 *)
  | ExitInvalidAccept            (* 204 *)
  | ExitNoAcceptElement          (* 211 *)
  | ExitNoResource               (* 222 *)
  | ExitNoMatchingResource       (* 231 *)
  | ExitBodyUnreadable           (* 247 *)
  | ExitBodyNotAllowed           (* 254 *)
  | ExitNoInstance               (* 264 *)
  | ExitDefaultValueKind (qpKey : string)  (* 280 *)
  | ExitValueKind (qpKey : string)         (* 288 *)
  | ExitValueFormat (qpKey : string)       (* 297 *)
  | ExitServed                   (* 309 *)
  | ExitNilEndpoint              (* 216, call on a nil pointer *)
  | ExitNilImplementation        (* 306, call on a nil interface *)
  | ExitNilContentTypeOut        (* 307, nil pointer dereference *)
  | ExitWriteHeaderPanic.        (* 341, status code refused by WriteHeader *)

(** A statement either falls through to the next one or leaves the
    function. *)
Inductive Flow (A : Type) :=
  | Next (a : A)
  | Leave (x : Exit).
Arguments Next {A} a.
Arguments Leave {A} x.

Section Dispatcher.
Context `{Package}.

(** The state one call of [ServeHTTP] works on: the response writer, the
    handler objects created at registration, and the calls made so far. *)
Record ServeState := {
  writer : ResponseWriter;
  objects : gmap loc ImplState;
  calls : list Call
}.

Definition Serve (A : Type) : Type := ServeState -> Flow A * ServeState.

Definition serve_ret {A} (a : A) : Serve A := fun st => (Next a, st).

Definition serve_bind {A B} (m : Serve A) (k : A -> Serve B) : Serve B :=
  fun st =>
    match m st with
    | (Next a, st') => k a st'
    | (Leave x, st') => (Leave x, st')
    end.

Definition leave {A} (x : Exit) : Serve A := fun st => (Leave x, st).

Definition call (c : Call) : Serve unit :=
  fun st => (Next tt, {| writer := writer st; objects := objects st;
                         calls := calls st ++ [c] |}).

Definition onWriter (f : ResponseWriter -> ResponseWriter) : Serve unit :=
  fun st => (Next tt, {| writer := f (writer st); objects := objects st;
                         calls := calls st |}).

Definition when (b : bool) (m : Serve unit) : Serve unit :=
  if b then m else serve_ret tt.

#[local] Instance Serve_ret : MRet Serve := @serve_ret.
#[local] Instance Serve_bind : MBind Serve := fun A B k m => serve_bind m k.

(** The collaborators' calls, recorded as they are made. *)
Definition findNodeByRoute (r : router) (urlPath : string)
    : Serve (option node * gmap string string * option string) :=
  call (CallFindNodeByRoute urlPath);; mret (FindNodeByRoute r urlPath).

Definition getEndpoint (n : node) : Serve (option endpoint) :=
  call CallGetEndpoint;; mret (GetEndpoint n).

Definition parseContentType (header : string)
    : Serve (contentTypeHeaderParser * option string) :=
  call (CallNewContentTypeHeaderParser header);;
  mret (newContentTypeHeaderParser header).

Definition parseAccept (header : string)
    : Serve (acceptHeaderParser * option string) :=
  call (CallNewAcceptHeaderParser header);;
  mret (newAcceptHeaderParser header).

Definition hasAcceptElement (p : acceptHeaderParser) : Serve bool :=
  call CallHasAcceptElement;; mret (HasAcceptElement p).

Definition getResourceHandlers (e : endpoint) : Serve (list ResourceHandler) :=
  call CallGetResourceHandlers;; mret (GetResourceHandlers e).

Definition findMatchingResource (e : endpoint) (method : string)
    (ct : contentTypeHeaderParser) (ac : acceptHeaderParser)
    : Serve (option ResourceHandler * option string * option string) :=
  call (CallFindMatchingResource method);;
  mret (FindMatchingResource e method ct ac).

Definition readAll (request : Request) : Serve (string * option string) :=
  call CallReadAll;; mret (reqBody request).

Definition isValidType (qpKey : string) (qpObject : QueryParameter)
    (qpValue : string) : Serve bool :=
  call (CallIsValidType qpKey qpValue);; mret (IsValidType qpObject qpValue).

Definition isValid (qpKey : string) (validator : QueryParameterFormatValidator)
    (qpValue : string) : Serve bool :=
  call (CallIsValid qpKey qpValue);; mret (IsValid validator qpValue).

Definition getErrorMessage (qpKey : string)
    (validator : QueryParameterFormatValidator) : Serve string :=
  call (CallGetErrorMessage qpKey);; mret (GetErrorMessage validator).

(** [s.renderResourceResult(writer, &result, contentType, requestId)]:
    a panic of [WriteHeader] inside the call ends [ServeHTTP] as well. *)
Definition render (result : ResourceHandlerResult)
    (contentType requestId : string) : Serve unit :=
  onWriter (fun w => renderResourceResult w result contentType requestId);;
  when (negb (checkWriteHeaderCode (HttpStatus result)))
    (leave ExitWriteHeaderPanic).

(** The error responses all have the shape
    [&ResourceHandlerResult{HttpStatus: status, Body:
    bytes.NewBufferString(message)}] with content type [text/plain]. *)
Definition renderError (status : Z) (message requestId : string) : Serve unit :=
  render {| HttpStatus := status; Body := Some message |} "text/plain" requestId.

(** [resource.Implementation.Execute(&resourceHandlerContext)]: the call
    goes to the object the handler refers to and may change it, and it
    may write to the context it gets a pointer to. *)
Definition execute (resource : ResourceHandler)
    (context : ResourceHandlerContext)
    : Serve (ResourceHandlerResult * ResourceHandlerContext) :=
  fun st =>
    match objects st !! Implementation resource with
    | None => (Leave ExitNilImplementation, st)
    | Some o =>
        let '(result, o', context') := Execute o context in
        (Next (result, context'),
         {| writer := writer st;
            objects := <[Implementation resource := o']> (objects st);
            calls := calls st ++ [CallExecute (Implementation resource) context] |})
    end.

(** [generateRequestId] (server.go, 311-315) *)
Definition generateRequestId (t : time_Time) : string :=
  sha1Base64 (time_String t).

Definition isNil {A} (p : option A) : bool :=
  match p with
  | None => true
  | Some _ => false
  end.

(** Use of a pointer that an earlier statement has tested: the value when
    it is not nil, else the statements of the nil branch. *)
Definition nonNil {A} (p : option A) (onNil : Serve A) : Serve A :=
  match p with
  | Some a => mret a
  | None => onNil
  end.

(** One round of the loop over [resource.QueryParameters]
    (server.go, 272-303): the map of the context before and after. *)
Definition checkQueryParameter (requestId : string) (urlValues : MultiMap)
    (qpKey : string) (qpObject : QueryParameter)
    (queryParameters : gmap string string) : Serve (gmap string string) :=
  let qpValue := Get urlValues qpKey in
  qpValue ←
    (if bool_decide (qpValue = ""%string) then
       let qpValue := DefaultValue qpObject in
       ok ← isValidType qpKey qpObject qpValue;
       when (negb ok)
         (renderError StatusBadRequest
            ("[" +:+ requestId +:+ "] Query parameter " +:+ qpKey +:+
             " default value must be of kind " +:+ Kind qpObject) requestId;;
          leave (ExitDefaultValueKind qpKey));;
       mret qpValue
     else mret qpValue);
  ok ← isValidType qpKey qpObject qpValue;
  if negb ok then
    renderError StatusBadRequest
      ("[" +:+ requestId +:+ "] Query parameter " +:+ qpKey +:+
       " must be of kind " +:+ Kind qpObject) requestId;;
    leave (ExitValueKind qpKey)
  else
    match FormatValidator qpObject with
    | Some validator =>
        valid ← isValid qpKey validator qpValue;
        if negb valid then
          message ← getErrorMessage qpKey validator;
          renderError StatusBadRequest
            ("[" +:+ requestId +:+ "] Invalid Query Parameter, " +:+ message)
            requestId;;
          leave (ExitValueFormat qpKey)
        else mret tt
    | None => mret tt
    end;;
    mret (<[qpKey := qpValue]> queryParameters).

Fixpoint checkQueryParameters (requestId : string) (urlValues : MultiMap)
    (entries : list (string * QueryParameter))
    (queryParameters : gmap string string) : Serve (gmap string string) :=
  match entries with
  | [] => mret queryParameters
  | (qpKey, qpObject) :: entries =>
      queryParameters ←
        checkQueryParameter requestId urlValues qpKey qpObject queryParameters;
      checkQueryParameters requestId urlValues entries queryParameters
  end.

(** ** ServeHTTP (server.go, 116-309)

    [now] is what [time.Now()] reads when the request arrives.  The body
    of the function is cut in two where the source says "Found a matching
    resource implementation": [resolve] is lines 116-232, [serve] is lines
    234-308, and the values of the local variables that the second half
    reads are handed over in a [Resolved]. *)
Record Resolved := {
  requestId : string;
  routeVariables : gmap string string;
  matchingResource : option ResourceHandler;
  contentTypeIn : option string;
  contentTypeOut : option string
}.

Definition resolve (s : Server) (request : Request) (now : time_Time)
    : Serve Resolved :=
  let timeStart := if debugEnableLogRequestDuration s then now else zeroTime in
  let requestId := if debugEnableLogRequestIdentifier s
                   then generateRequestId timeStart else "o"%string in
  let urlPath := URL_Path request in
  let method := Method request in
  (* Serves documentation if requested and enabled *)
  when (documentationEndpointEnabled s
        && bool_decide (documentationEndpointUrl s = urlPath))
    (call CallServeDocumentation;; onWriter serveDocumentation;;
     leave ExitDocumentation);;
  (* Find route node and associated route variables *)
  '(node, routeVariables, err) ← findNodeByRoute (router_ s) urlPath;
  match err with
  | Some message =>
      renderError StatusBadRequest message requestId;; leave ExitRouteError
  | None => mret tt
  end;;
  (* No route node was found *)
  node ← nonNil node
    (renderError StatusBadRequest
       ("[" +:+ requestId +:+ "] Could not find route for " +:+ urlPath)
       requestId;;
     leave ExitRouteNotFound);
  (* No endpoint registered on that node *)
  endp ← getEndpoint node;
  when (isNil endp)
    (renderError StatusInternalServerError
       ("[" +:+ requestId +:+ "] No endpoint found for this route " +:+ urlPath)
       requestId;;
     leave ExitNoEndpoint);;
  (* Parse Content-Type and Accept headers *)
  '(contentTypeParser, err) ←
    parseContentType (Get (reqHeader request) "Content-Type");
  match err with
  | Some e =>
      renderError StatusBadRequest
        ("[" +:+ requestId +:+ "] Invalid Content-Type header : " +:+ e)
        requestId;;
      leave ExitInvalidContentType
  | None => mret tt
  end;;
  '(acceptParser, err) ← parseAccept (Get (reqHeader request) "Accept");
  match err with
  | Some e =>
      renderError StatusBadRequest
        ("[" +:+ requestId +:+ "] Invalid Accept header : " +:+ e) requestId;;
      leave ExitInvalidAccept
  | None => mret tt
  end;;
  has ← hasAcceptElement acceptParser;
  when (negb has)
    (renderError StatusBadRequest
       ("[" +:+ requestId +:+ "] No valid Accept header was given") requestId;;
     leave ExitNoAcceptElement);;
  (* Looks for associated resources *)
  endp ← getEndpoint node;
  endp ← nonNil endp (leave ExitNilEndpoint);
  availableResourceImplementations ← getResourceHandlers endp;
  when (bool_decide (length availableResourceImplementations = 0%nat))
    (renderError StatusInternalServerError
       ("[" +:+ requestId +:+ "] No resource found on this route " +:+ urlPath)
       requestId;;
     leave ExitNoResource);;
  '(matchingResource, contentTypeIn, contentTypeOut) ←
    findMatchingResource endp method contentTypeParser acceptParser;
  when (isNil matchingResource)
    (renderError StatusBadRequest
       ("[" +:+ requestId +:+ "] No available resource for this Content-Type")
       requestId;;
     leave ExitNoMatchingResource);;
  mret {| requestId := requestId;
          routeVariables := routeVariables;
          matchingResource := matchingResource;
          contentTypeIn := contentTypeIn;
          contentTypeOut := contentTypeOut |}.

(** The fields of [resourceHandlerContext] are put into the record where
    the source first passes it on, at the call of [Execute]. *)
Definition serve (s : Server) (request : Request) (r : Resolved)
    : Serve unit :=
  let requestId := requestId r in
  (* Read request body *)
  '(bodyInBytes, err) ← readAll request;
  when (negb (isNil err))
    (renderError StatusInternalServerError
       ("[" +:+ requestId +:+ "] Could not read request body") requestId;;
     leave ExitBodyUnreadable);;
  when (isNil (contentTypeIn r) && (0 <? Len bodyInBytes))
    (renderError StatusBadRequest
       ("[" +:+ requestId +:+ "] Body is not allowed for this resource")
       requestId;;
     leave ExitBodyNotAllowed);;
  (* Create a new instance from factory and executes it *)
  let resource := matchingResource r in
  resource ← nonNil resource
    (renderError StatusInternalServerError
       ("[" +:+ requestId +:+
        "] Resource factory must instanciate a valid Resource") requestId;;
     leave ExitNoInstance);
  (* Check and provide query parameters *)
  let urlValues := URL_Query request in
  queryParameters ←
    checkQueryParameters requestId urlValues
      (rangeOrder (rhQueryParameters resource)) ∅;
  (* Everything went fine, finally we can serve the request *)
  '(result, resourceHandlerContext) ←
    execute resource
      {| RouteVariables := routeVariables r;
         Header := reqHeader request;
         RequestId := if debugEnableLogRequestIdentifier s
                      then Some requestId else None;
         ContentTypeIn := contentTypeIn r;
         ContentTypeOut := contentTypeOut r;
         ctxBody := Some bodyInBytes;
         QueryParameters := queryParameters |};
  contentType ← nonNil (ContentTypeOut resourceHandlerContext)
    (leave ExitNilContentTypeOut);
  render result contentType requestId.

Definition ServeHTTP_body (s : Server) (request : Request) (now : time_Time)
    : Serve unit :=
  r ← resolve s request now; serve s request r.

(** A whole call: where it left the function and the state it leaves. *)
Definition ServeHTTP (s : Server) (request : Request) (now : time_Time)
    (st : ServeState) : Exit * ServeState :=
  match ServeHTTP_body s request now st with
  | (Next _, st') => (ExitServed, st')
  | (Leave x, st') => (x, st')
  end.

(** The state a call starts from: the writer handed in by net/http and
    the handler objects as earlier requests left them. *)
Definition start (w : ResponseWriter) (objs : gmap loc ImplState) : ServeState :=
  {| writer := w; objects := objs; calls := [] |}.

End Dispatcher.

(** ** Vocabulary of the statements *)

Section Vocabulary.
Context `{Package}.

(** The byte length that [renderResourceResult] announces. *)
Definition bodyLength (result : ResourceHandlerResult) : Z :=
  match Body result with
  | Some b => Len b
  | None => 0
  end.

(** The value the loop works with for one declared parameter. *)
Definition effective (urlValues : MultiMap) (qpKey : string)
    (qpObject : QueryParameter) : string :=
  if bool_decide (Get urlValues qpKey = ""%string)
  then DefaultValue qpObject
  else Get urlValues qpKey.

Definition formatAccepts (qpObject : QueryParameter) (qpValue : string) : bool :=
  match FormatValidator qpObject with
  | Some validator => IsValid validator qpValue
  | None => true
  end.

(** The calls [resolve] has made when it hands over to [serve]. *)
Definition resolveCalls (request : Request) : list Call :=
  [ CallFindNodeByRoute (URL_Path request); CallGetEndpoint;
    CallNewContentTypeHeaderParser (Get (reqHeader request) "Content-Type");
    CallNewAcceptHeaderParser (Get (reqHeader request) "Accept");
    CallHasAcceptElement; CallGetEndpoint; CallGetResourceHandlers;
    CallFindMatchingResource (Method request) ].

(** The request is the one for the documentation (server.go, 149). *)
Definition forDocumentation (s : Server) (request : Request) : bool :=
  documentationEndpointEnabled s
  && bool_decide (documentationEndpointUrl s = URL_Path request).

Definition isExecute (c : Call) : bool :=
  match c with
  | CallExecute _ _ => true
  | _ => false
  end.

Definition isFindMatchingResource (c : Call) : bool :=
  match c with
  | CallFindMatchingResource _ => true
  | _ => false
  end.

(** The calls one round of the loop may make for the parameter [qpKey]
    with the value [qpValue]: the format validator is only asked when the
    kind check has passed ([kindOk]). *)
Definition validationCall (qpKey qpValue : string) (kindOk : bool) (c : Call)
    : Prop :=
  match c with
  | CallIsValidType k v => k = qpKey /\ v = qpValue
  | CallIsValid k v => k = qpKey /\ v = qpValue /\ kindOk = true
  | CallGetErrorMessage k => k = qpKey
  | _ => False
  end.

Definition queryCall (urlValues : MultiMap)
    (entries : list (string * QueryParameter)) (c : Call) : Prop :=
  exists qpKey qpObject,
    (qpKey, qpObject) ∈ entries
    /\ validationCall qpKey (effective urlValues qpKey qpObject)
         (IsValidType qpObject (effective urlValues qpKey qpObject)) c.

(** In a sequence of calls, every question to a format validator comes
    after the kind check of the same parameter and value. *)
Definition kindCheckedFirst (cs : list Call) : Prop :=
  forall l1 l2 qpKey qpValue,
    cs = l1 ++ CallIsValid qpKey qpValue :: l2 ->
    CallIsValidType qpKey qpValue ∈ l1.

Definition isValidation (c : Call) : bool :=
  match c with
  | CallIsValidType _ _ | CallIsValid _ _ | CallGetErrorMessage _ => true
  | _ => false
  end.

Definition isIsValid (c : Call) : bool :=
  match c with
  | CallIsValid _ _ => true
  | _ => false
  end.

(** How a round of the loop that leaves the function has failed: the
    exit, and the message of the response. *)
Definition rejection (requestId : string) (urlValues : MultiMap)
    (qpKey : string) (qpObject : QueryParameter) (x : Exit) (message : string)
    : Prop :=
  let qpValue := effective urlValues qpKey qpObject in
  (x = ExitDefaultValueKind qpKey
   /\ Get urlValues qpKey = ""%string
   /\ IsValidType qpObject (DefaultValue qpObject) = false
   /\ message = "[" +:+ requestId +:+ "] Query parameter " +:+ qpKey
                +:+ " default value must be of kind " +:+ Kind qpObject)
  \/ (x = ExitValueKind qpKey
      /\ Get urlValues qpKey <> ""%string
      /\ IsValidType qpObject (Get urlValues qpKey) = false
      /\ message = "[" +:+ requestId +:+ "] Query parameter " +:+ qpKey
                   +:+ " must be of kind " +:+ Kind qpObject)
  \/ (x = ExitValueFormat qpKey
      /\ IsValidType qpObject qpValue = true
      /\ exists validator,
           FormatValidator qpObject = Some validator
           /\ IsValid validator qpValue = false
           /\ message = "[" +:+ requestId +:+ "] Invalid Query Parameter, "
                        +:+ GetErrorMessage validator).

(** The map the loop has filled when it has gone through [entries]. *)
Definition delivered (urlValues : MultiMap)
    (entries : list (string * QueryParameter)) (acc : gmap string string)
    : gmap string string :=
  foldl (λ m e, <[e.1 := effective urlValues e.1 e.2]> m) acc entries.

(** The status of the error response written before each [return]. *)
Definition exitStatus (x : Exit) : Z :=
  match x with
  | ExitNoEndpoint | ExitNoResource | ExitBodyUnreadable | ExitNoInstance =>
      StatusInternalServerError
  | _ => StatusBadRequest
  end.

(** The request id of a call (server.go, 125-128). *)
Definition requestIdOf (s : Server) (now : time_Time) : string :=
  if debugEnableLogRequestIdentifier s
  then generateRequestId (if debugEnableLogRequestDuration s
                          then now else zeroTime)
  else "o"%string.

(** The context [serve] passes to [Execute] once the loop has filled the
    map of query parameters. *)
Definition contextOf (s : Server) (request : Request) (r : Resolved)
    (queryParameters : gmap string string) : ResourceHandlerContext :=
  {| RouteVariables := routeVariables r;
     Header := reqHeader request;
     RequestId := if debugEnableLogRequestIdentifier s
                  then Some (requestId r) else None;
     ContentTypeIn := contentTypeIn r;
     ContentTypeOut := contentTypeOut r;
     ctxBody := Some (reqBody request).1;
     QueryParameters := queryParameters |}.

Definition exitOf {A} (fl : Flow A) : Exit :=
  match fl with
  | Next _ => ExitServed
  | Leave x => x
  end.

(** The error response of the dispatcher, as a change of the writer. *)
Definition errorResponse (status : Z) (message requestId : string)
    (w : ResponseWriter) : ResponseWriter :=
  renderResourceResult w {| HttpStatus := status; Body := Some message |}
    "text/plain" requestId.

(** The request with another query string. *)
Definition withQuery (request : Request) (query : MultiMap) : Request :=
  {| Method := Method request; URL_Path := URL_Path request;
     URL_Query := query; reqHeader := reqHeader request;
     reqBody := reqBody request |}.

End Vocabulary.

(** ** A small instance of the package to run the dispatcher on *)
Module Sample.

(** Modelled from the spec: router.go, endpoint.go, the header parsers
    and the query-parameter kinds are not among the sources at hand.  The
    stand-ins of this module follow sections 4.1 to 4.5 of the
    specification on literal routes and on headers with a single media
    type without parameters, which is all the runs further down need.
    An entry of an endpoint: a handler with the method and the media
    types it declares (section 3, ResourceHandler). *)
Record handlerEntry := {
  entryMethod : string;
  entryIn : list string;
  entryOut : list string;
  entryHandler : ResourceHandler
}.

Fixpoint contains (c : ascii) (s : string) : bool :=
  match s with
  | EmptyString => false
  | String a s => bool_decide (a = c) || contains c s
  end.

(** Modelled from the spec: the Content-Type parser of section 4.4, which
    rejects several comma-separated entries and a missing slash and takes
    the empty header as "no declared input type". *)
Definition mediaTypeError (header : string) : option string :=
  if bool_decide (header = ""%string) then None
  else if contains "," header then Some "multiple media types"%string
  else if contains "/" header then None
  else Some "missing /"%string.

(** Modelled from the spec: the Accept parser of section 4.4 on a header
    with at most one element; an element without a slash is dropped. *)
Definition acceptElements (header : string) : list string :=
  if contains "/" header then [header] else [].

Fixpoint allDigits (s : string) : bool :=
  match s with
  | EmptyString => true
  | String a s =>
      (48 <=? Z.of_nat (nat_of_ascii a)) && (Z.of_nat (nat_of_ascii a) <=? 57)
      && allDigits s
  end.

(** Modelled from the spec: the kind check of section 4.5 ("parses as the
    kind's primitive grammar").  The kind [int] accepts the non-empty
    strings of decimal digits, every other kind accepts every string. *)
Definition kindAccepts (kind value : string) : bool :=
  if bool_decide (kind = "int"%string)
  then negb (bool_decide (value = ""%string)) && allDigits value
  else true.

(** Modelled from the spec: [contentTypeIn] of section 4.3, the request's
    content type when the handler declares it, "none" when the handler
    declares no input type and the request carries none. *)
Definition resolveIn (declared : list string) (contentType : string)
    : option (option string) :=
  if bool_decide (contentType = ""%string)
  then (if bool_decide (declared = []) then Some None else None)
  else (if bool_decide (contentType ∈ declared)
        then Some (Some contentType) else None).

(** Modelled from the spec: [contentTypeOut] of sections 4.3 and 4.4 for a
    preference list of one element: the first declared output type when
    the element is [*/*], else the declared output type equal to it. *)
Definition resolveOut (declared accept : list string) : option string :=
  if bool_decide ("*/*"%string ∈ accept) then head declared
  else head (filter (λ t, t ∈ accept) declared).

(** Modelled from the spec: [FindMatchingResource] of section 4.3, the
    first handler in registration order with the request's method for
    which both content types resolve. *)
Fixpoint findMatching (entries : list handlerEntry) (method contentType : string)
    (accept : list string)
    : option ResourceHandler * option string * option string :=
  match entries with
  | [] => (None, None, None)
  | e :: entries =>
      if bool_decide (entryMethod e = method) then
        match resolveIn (entryIn e) contentType, resolveOut (entryOut e) accept with
        | Some cIn, Some cOut => (Some (entryHandler e), cIn, Some cOut)
        | _, _ => findMatching entries method contentType accept
        end
      else findMatching entries method contentType accept
  end.

(** The handler objects count the requests they have served and answer
    with the count. *)
Definition countingExecute (hits : Z) (context : ResourceHandlerContext)
    : ResourceHandlerResult * Z * ResourceHandlerContext :=
  ({| HttpStatus := 200; Body := Some (Itoa hits) |}, hits + 1, context).

(** Modelled from the spec: the router resolves literal routes only and
    captures no variables (section 4.1); a node is its optional endpoint,
    an endpoint its ordered handlers (section 3). *)
Definition package : Package := {|
  router := gmap string (option (list handlerEntry));
  node := option (list handlerEntry);
  endpoint := list handlerEntry;
  contentTypeHeaderParser := string;
  acceptHeaderParser := list string;
  time_Time := unit;
  ImplState := Z;
  zeroTime := tt;
  FindNodeByRoute := λ r urlPath, (r !! urlPath, ∅, None);
  GetEndpoint := λ n, n;
  GetResourceHandlers := λ e, entryHandler <$> e;
  FindMatchingResource := findMatching;
  newContentTypeHeaderParser := λ h, (h, mediaTypeError h);
  newAcceptHeaderParser := λ h, (acceptElements h, None);
  HasAcceptElement := λ p, negb (bool_decide (p = []));
  IsValidType := λ q value, kindAccepts (Kind q) value;
  Execute := countingExecute;
  sha1Base64 := λ x, x;
  time_String := λ _, ""%string;
  serveDocumentation :=
    λ w, renderResourceResult w
           {| HttpStatus := 200; Body := Some "documentation"%string |}
           "text/html" "o";
  rangeOrder := map_to_list;
  rangeOrder_perm := λ m, Permutation_refl (map_to_list m)
|}.

#[local] Existing Instance package.

(** [GET /items?limit=n] lists items; the default of [limit] is not an
    [int].  [GET /hits] has no query parameters. *)
Definition limit : QueryParameter :=
  {| Kind := "int"; DefaultValue := "ten"; FormatValidator := None |}.

Definition itemsHandler : ResourceHandler :=
  {| rhQueryParameters := {[ "limit"%string := limit ]}; Implementation := 1%positive |}.

Definition hitsHandler : ResourceHandler :=
  {| rhQueryParameters := ∅; Implementation := 2%positive |}.

(** [GET /users?page=n] lists users; a page number has at most three
    digits and is 1 when the request names none. *)
Definition threeDigits : QueryParameterFormatValidator :=
  {| IsValid := λ v, bool_decide (String.length v ≤ 3)%nat;
     GetErrorMessage := "page has at most three digits" |}.

Definition page : QueryParameter :=
  {| Kind := "int"; DefaultValue := "1"; FormatValidator := Some threeDigits |}.

Definition usersHandler : ResourceHandler :=
  {| rhQueryParameters := {[ "page"%string := page ]};
     Implementation := 3%positive |}.

Definition get (h : ResourceHandler) : handlerEntry :=
  {| entryMethod := "GET"; entryIn := [];
     entryOut := ["application/json"%string]; entryHandler := h |}.

Definition server : Server :=
  {| pattern := "/"; address := ":8080";
     router_ := {[ "/items"%string := Some [get itemsHandler];
                   "/hits"%string := Some [get hitsHandler];
                   "/users"%string := Some [get usersHandler];
                   "/empty"%string := None ]};
     documentationEndpointEnabled := false;
     documentationEndpointUrl := "";
     debugEnableLogRequestDump := false;
     debugEnableLogRequestIdentifier := false;
     debugEnableLogRequestDuration := false |}.

Definition objects0 : gmap loc Z :=
  {[ 1%positive := 0; 2%positive := 0; 3%positive := 0 ]}.

Definition request (urlPath : string) (query : MultiMap) (accept body : string)
    : Request :=
  {| Method := "GET"; URL_Path := urlPath; URL_Query := query;
     reqHeader := {[ "Accept"%string := [accept] ]};
     reqBody := (body, None) |}.

(** One call of the dispatcher on a fresh writer. *)
Definition run (r : Request) (objs : gmap loc Z) : Exit * ServeState :=
  ServeHTTP server r tt (start newResponseWriter objs).

(** What [resolve] hands over for a request to the handler [h], and the
    state it leaves when it started on a fresh writer. *)
Definition resolved (h : ResourceHandler) : Resolved :=
  {| requestId := "o"; routeVariables := ∅; matchingResource := Some h;
     contentTypeIn := None; contentTypeOut := Some "application/json"%string |}.

Definition resolvedState (r : Request) (objs : gmap loc Z) : ServeState :=
  {| writer := newResponseWriter; objects := objs; calls := resolveCalls r |}.

Definition json : string := "application/json".

Definition itemsRequest : Request := request "/items" ∅ json "".
Definition hitsRequest : Request := request "/hits" ∅ json "".
Definition usersRequest (pages : list string) : Request :=
  request "/users" {[ "page"%string := pages ]} json "".

End Sample.

(** The sample package with handler objects that leave the status of
    their result at the zero value of [int]. *)
Module Faulty.
Import Sample.

Definition zeroStatusExecute (hits : Z) (context : ResourceHandlerContext)
    : ResourceHandlerResult * Z * ResourceHandlerContext :=
  ({| HttpStatus := 0; Body := Some (Itoa hits) |}, hits + 1, context).

Definition package : Package := {|
  router := gmap string (option (list handlerEntry));
  node := option (list handlerEntry);
  endpoint := list handlerEntry;
  contentTypeHeaderParser := string;
  acceptHeaderParser := list string;
  time_Time := unit;
  ImplState := Z;
  zeroTime := tt;
  FindNodeByRoute := λ r urlPath, (r !! urlPath, ∅, None);
  GetEndpoint := λ n, n;
  GetResourceHandlers := λ e, entryHandler <$> e;
  FindMatchingResource := findMatching;
  newContentTypeHeaderParser := λ h, (h, mediaTypeError h);
  newAcceptHeaderParser := λ h, (acceptElements h, None);
  HasAcceptElement := λ p, negb (bool_decide (p = []));
  IsValidType := λ q value, kindAccepts (Kind q) value;
  Execute := zeroStatusExecute;
  sha1Base64 := λ x, x;
  time_String := λ _, ""%string;
  serveDocumentation := λ w, w;
  rangeOrder := map_to_list;
  rangeOrder_perm := λ m, Permutation_refl (map_to_list m)
|}.

#[local] Existing Instance package.

Definition server : Server :=
  {| pattern := "/"; address := ":8080";
     router_ := {[ "/hits"%string := Some [get hitsHandler] ]};
     documentationEndpointEnabled := false;
     documentationEndpointUrl := "";
     debugEnableLogRequestDump := false;
     debugEnableLogRequestIdentifier := false;
     debugEnableLogRequestDuration := false |}.

Definition run (r : Request) (objs : gmap loc Z) : Exit * ServeState :=
  ServeHTTP server r tt (start newResponseWriter objs).

End Faulty.

(** ** The configuration methods of the server (server.go, 55-114) *)

Section Configuration.
Context `{Package}.

(** [NewServer] (55-60): the fields the struct literal does not name have
    their zero values.  [newRouter] is what the constructor of router.go
    returns. *)
Definition NewServer (newRouter : router) (pattern address : string) : Server :=
  {| pattern := pattern; address := address; router_ := newRouter;
     documentationEndpointEnabled := false;
     documentationEndpointUrl := "";
     debugEnableLogRequestDump := false;
     debugEnableLogRequestIdentifier := false;
     debugEnableLogRequestDuration := false |}.

(** [DebugEnableLogRequestDump] (79-81) *)
Definition DebugEnableLogRequestDump (s : Server) (b : bool) : Server :=
  {| pattern := pattern s; address := address s; router_ := router_ s;
     documentationEndpointEnabled := documentationEndpointEnabled s;
     documentationEndpointUrl := documentationEndpointUrl s;
     debugEnableLogRequestDump := b;
     debugEnableLogRequestIdentifier := debugEnableLogRequestIdentifier s;
     debugEnableLogRequestDuration := debugEnableLogRequestDuration s |}.

(** [DebugEnableLogRequestIdentifier] (83-85) *)
Definition DebugEnableLogRequestIdentifier (s : Server) (b : bool) : Server :=
  {| pattern := pattern s; address := address s; router_ := router_ s;
     documentationEndpointEnabled := documentationEndpointEnabled s;
     documentationEndpointUrl := documentationEndpointUrl s;
     debugEnableLogRequestDump := debugEnableLogRequestDump s;
     debugEnableLogRequestIdentifier := b;
     debugEnableLogRequestDuration := debugEnableLogRequestDuration s |}.

(** [DebugEnableLogRequestDuration] (87-89) *)
Definition DebugEnableLogRequestDuration (s : Server) (b : bool) : Server :=
  {| pattern := pattern s; address := address s; router_ := router_ s;
     documentationEndpointEnabled := documentationEndpointEnabled s;
     documentationEndpointUrl := documentationEndpointUrl s;
     debugEnableLogRequestDump := debugEnableLogRequestDump s;
     debugEnableLogRequestIdentifier := debugEnableLogRequestIdentifier s;
     debugEnableLogRequestDuration := b |}.

(** [EnableDocumentationEndpoint] (107-114) *)
Definition EnableDocumentationEndpoint (s : Server) (url : string) : Server :=
  {| pattern := pattern s; address := address s; router_ := router_ s;
     documentationEndpointEnabled := true;
     documentationEndpointUrl := url;
     debugEnableLogRequestDump := debugEnableLogRequestDump s;
     debugEnableLogRequestIdentifier := debugEnableLogRequestIdentifier s;
     debugEnableLogRequestDuration := debugEnableLogRequestDuration s |}.

(** *** Why a call ends where it ends

    The checks of [ServeHTTP] in the order of the source, each with the
    results of the checks before it. *)

(** The router is asked and returns the node [n] without error. *)
Definition routed (s : Server) (request : Request) (n : node)
    (rv : gmap string string) : Prop :=
  forDocumentation s request = false
  /\ FindNodeByRoute (router_ s) (URL_Path request) = (Some n, rv, None).

(** The node has the endpoint [e], and both headers parse: the Accept
    header has an element. *)
Definition negotiable (s : Server) (request : Request) (n : node)
    (rv : gmap string string) (e : endpoint) (cp : contentTypeHeaderParser)
    (ap : acceptHeaderParser) : Prop :=
  routed s request n rv
  /\ GetEndpoint n = Some e
  /\ newContentTypeHeaderParser (Get (reqHeader request) "Content-Type")
     = (cp, None)
  /\ newAcceptHeaderParser (Get (reqHeader request) "Accept") = (ap, None)
  /\ HasAcceptElement ap = true.

(** What [resolve] hands over is what the router and the endpoint have
    returned for the request. *)
Definition matched (s : Server) (request : Request) (now : time_Time)
    (r : Resolved) : Prop :=
  exists n e cp ap,
    negotiable s request n (routeVariables r) e cp ap
    /\ GetResourceHandlers e <> []
    /\ FindMatchingResource e (Method request) cp ap
       = (matchingResource r, contentTypeIn r, contentTypeOut r)
    /\ is_Some (matchingResource r)
    /\ requestId r = requestIdOf s now.

(** The condition under which the first half leaves through [x]. *)
Definition resolveCause (s : Server) (request : Request) (x : Exit) : Prop :=
  match x with
  | ExitDocumentation => forDocumentation s request = true
  | ExitRouteError =>
      forDocumentation s request = false
      /\ exists n rv message,
           FindNodeByRoute (router_ s) (URL_Path request)
           = (n, rv, Some message)
  | ExitRouteNotFound =>
      forDocumentation s request = false
      /\ exists rv,
           FindNodeByRoute (router_ s) (URL_Path request) = (None, rv, None)
  | ExitNoEndpoint =>
      exists n rv, routed s request n rv /\ GetEndpoint n = None
  | ExitInvalidContentType =>
      exists n rv e cp message,
        routed s request n rv /\ GetEndpoint n = Some e
        /\ newContentTypeHeaderParser (Get (reqHeader request) "Content-Type")
           = (cp, Some message)
  | ExitInvalidAccept =>
      exists n rv e cp ap message,
        routed s request n rv /\ GetEndpoint n = Some e
        /\ newContentTypeHeaderParser (Get (reqHeader request) "Content-Type")
           = (cp, None)
        /\ newAcceptHeaderParser (Get (reqHeader request) "Accept")
           = (ap, Some message)
  | ExitNoAcceptElement =>
      exists n rv e cp ap,
        routed s request n rv /\ GetEndpoint n = Some e
        /\ newContentTypeHeaderParser (Get (reqHeader request) "Content-Type")
           = (cp, None)
        /\ newAcceptHeaderParser (Get (reqHeader request) "Accept")
           = (ap, None)
        /\ HasAcceptElement ap = false
  | ExitNoResource =>
      exists n rv e cp ap,
        negotiable s request n rv e cp ap /\ GetResourceHandlers e = []
  | ExitNoMatchingResource =>
      exists n rv e cp ap cIn cOut,
        negotiable s request n rv e cp ap /\ GetResourceHandlers e <> []
        /\ FindMatchingResource e (Method request) cp ap = (None, cIn, cOut)
  | _ => False
  end.

(** The body has been read without error, and it is empty when the
    handler takes no input. *)
Definition bodyAccepted (request : Request) (r : Resolved) : Prop :=
  (reqBody request).2 = None
  /\ (contentTypeIn r = None -> (reqBody request).1 = ""%string).

(** Every declared parameter passes the kind check and its format
    validator, with the value of the query string or its default. *)
Definition parametersAccepted (request : Request) (h : ResourceHandler) : Prop :=
  forall k qp,
    rhQueryParameters h !! k = Some qp ->
    IsValidType qp (effective (URL_Query request) k qp) = true
    /\ formatAccepts qp (effective (URL_Query request) k qp) = true.

(** The condition under which the second half, handed [r] with the
    handler [h], ends in [x]. *)
Definition serveCause (request : Request) (objs : gmap loc ImplState)
    (r : Resolved) (h : ResourceHandler) (x : Exit) : Prop :=
  let q := URL_Query request in
  match x with
  | ExitBodyUnreadable => (reqBody request).2 <> None
  | ExitBodyNotAllowed =>
      (reqBody request).2 = None /\ contentTypeIn r = None
      /\ (reqBody request).1 <> ""%string
  | ExitDefaultValueKind k =>
      bodyAccepted request r
      /\ exists qp,
           rhQueryParameters h !! k = Some qp /\ Get q k = ""%string
           /\ IsValidType qp (DefaultValue qp) = false
  | ExitValueKind k =>
      bodyAccepted request r
      /\ exists qp,
           rhQueryParameters h !! k = Some qp /\ Get q k <> ""%string
           /\ IsValidType qp (Get q k) = false
  | ExitValueFormat k =>
      bodyAccepted request r
      /\ exists qp validator,
           rhQueryParameters h !! k = Some qp
           /\ IsValidType qp (effective q k qp) = true
           /\ FormatValidator qp = Some validator
           /\ IsValid validator (effective q k qp) = false
  | ExitNilImplementation =>
      bodyAccepted request r /\ parametersAccepted request h
      /\ objs !! Implementation h = None
  | ExitServed | ExitNilContentTypeOut | ExitWriteHeaderPanic =>
      bodyAccepted request r /\ parametersAccepted request h
      /\ is_Some (objs !! Implementation h)
  | _ => False
  end.

(** The request passes every check of the dispatcher: [Execute] is
    called on the object of [h]. *)
Definition admitted (s : Server) (request : Request) (now : time_Time)
    (objs : gmap loc ImplState) (r : Resolved) (h : ResourceHandler) : Prop :=
  matched s request now r /\ matchingResource r = Some h
  /\ bodyAccepted request r /\ parametersAccepted request h
  /\ is_Some (objs !! Implementation h).

End Configuration.

(** * Properties *)

Section Properties.
Context `{Package}.

Ltac unfold_serve :=
  unfold findNodeByRoute, getEndpoint, parseContentType, parseAccept,
    hasAcceptElement, getResourceHandlers, findMatchingResource, readAll,
    isValidType, isValid, getErrorMessage, renderError, render, when, nonNil,
    leave, call, onWriter, mbind, mret, Serve_bind, Serve_ret, serve_bind,
    serve_ret in *.

Ltac by_leave H :=
  inversion H; subst; clear H; simpl;
  split; [reflexivity|];
  split; [eexists; split;
            [rewrite <- ?app_assoc; reflexivity | repeat constructor]|];
  eauto.

(** A call that has left before the Accept header was parsed. *)
Ltac by_reject :=
  split; [repeat constructor|]; split; [repeat constructor|];
  let Hin := fresh "Hin" in
  intros Hin; exfalso;
  repeat (apply elem_of_cons in Hin as [Hin|Hin]; [discriminate Hin|]);
  inversion Hin.

Lemma renderResourceResult_status w result contentType rid :
  checkWriteHeaderCode (HttpStatus result) = true ->
  wStatus (renderResourceResult w result contentType rid)
  = wStatus w ++ [HttpStatus result].
Proof.
  intros Hcode. unfold renderResourceResult, WriteHeader. rewrite Hcode.
  destruct (0 <? _); reflexivity.
Qed.

(** The panic of [WriteHeader] leaves the writer with its headers set and
    with the statuses and the body it had. *)
Lemma renderResourceResult_panic w result contentType rid :
  checkWriteHeaderCode (HttpStatus result) = false ->
  wStatus (renderResourceResult w result contentType rid) = wStatus w
  /\ wBody (renderResourceResult w result contentType rid) = wBody w.
Proof.
  intros Hcode. unfold renderResourceResult, WriteHeader. rewrite Hcode.
  destruct (0 <? _); split; reflexivity.
Qed.

Lemma Len_pos b : (0 <? Len b) = negb (bool_decide (b = ""%string)).
Proof.
  unfold Len. case_bool_decide as Hb; simpl.
  - subst b. reflexivity.
  - apply Z.ltb_lt. destruct b; [done | simpl; lia].
Qed.

(** The headers are set before [WriteHeader] is called: they do not
    depend on the status of the result. *)
Lemma renderResourceResult_wHeader w result contentType rid :
  wHeader (renderResourceResult w result contentType rid)
  = if 0 <? bodyLength result
    then Add (Set_ (wHeader w) "Content-Length" (Itoa (bodyLength result)))
           "Content-Type" contentType
    else Set_ (wHeader w) "Content-Length" (Itoa (bodyLength result)).
Proof.
  unfold renderResourceResult, WriteHeader. fold (bodyLength result).
  destruct (checkWriteHeaderCode _), (0 <? bodyLength result); reflexivity.
Qed.

(** C10: the Content-Length header carries the byte length of the result
    body (0 for a nil body), and on a writer that has no Content-Type yet
    the Content-Type header is present afterwards exactly when that length
    is positive, and then it is the content type passed in. *)
Theorem renderResourceResult_headers w result contentType rid :
  wHeader w !! "Content-Type"%string = None ->
  let w' := renderResourceResult w result contentType rid in
  wHeader w' !! "Content-Length"%string = Some [Itoa (bodyLength result)]
  /\ (is_Some (wHeader w' !! "Content-Type"%string) <-> 0 < bodyLength result)
  /\ (0 < bodyLength result ->
      wHeader w' !! "Content-Type"%string = Some [contentType])
  /\ (Body result = None -> bodyLength result = 0)
  /\ (forall b, Body result = Some b ->
      bodyLength result = Z.of_nat (String.length b)).
Proof.
  intros Hfresh w'. subst w'. rewrite renderResourceResult_wHeader.
  assert (Hlen : (Body result = None -> bodyLength result = 0)
            /\ (forall b, Body result = Some b ->
                 bodyLength result = Z.of_nat (String.length b))).
  { unfold bodyLength. split; [intros -> | intros b ->]; reflexivity. }
  assert (Hct : forall v : list string,
            <["Content-Length"%string := v]> (wHeader w)
              !! "Content-Type"%string = None).
  { intros v. rewrite lookup_insert_ne by discriminate. exact Hfresh. }
  destruct (0 <? bodyLength result) eqn:Hpos; simpl; unfold Add, Set_.
  - apply Z.ltb_lt in Hpos. rewrite Hct. simpl.
    rewrite lookup_insert_eq.
    rewrite lookup_insert_ne by discriminate.
    rewrite lookup_insert_eq.
    split; [reflexivity|]. split; [split; eauto|]. split; [done|]. exact Hlen.
  - apply Z.ltb_ge in Hpos. rewrite Hct, lookup_insert_eq.
    split; [reflexivity|].
    split; [split; [intros [? ?]; discriminate | lia]|].
    split; [lia|]. exact Hlen.
Qed.

(** *** Order of the calls *)

Lemma kindCheckedFirst_app cs1 cs2 :
  kindCheckedFirst cs1 -> kindCheckedFirst cs2 -> kindCheckedFirst (cs1 ++ cs2).
Proof.
  intros H1 H2 l1 l2 k v Heq.
  apply app_eq_app in Heq as [l [[-> Heq] | [-> Heq]]].
  - destruct l as [|c l]; simpl in Heq.
    + symmetry in Heq. apply (H2 [] l2 k v) in Heq. inversion Heq.
    + injection Heq as <- ->.
      apply (H1 l1 l k v). reflexivity.
  - apply elem_of_app. right. apply (H2 l l2 k v). exact Heq.
Qed.

Lemma kindCheckedFirst_other cs :
  Forall (fun c => isIsValid c = false) cs -> kindCheckedFirst cs.
Proof.
  intros Hall l1 l2 k v ->.
  apply Forall_app in Hall as [_ Hall]. inversion Hall; subst. discriminate.
Qed.

Lemma kindCheckedFirst_round k v cs :
  kindCheckedFirst cs -> kindCheckedFirst (CallIsValidType k v :: cs).
Proof.
  intros Hcs. apply (kindCheckedFirst_app [_] cs); [|exact Hcs].
  apply kindCheckedFirst_other. repeat constructor.
Qed.

Lemma kindCheckedFirst_asked k v cs :
  Forall (fun c => isIsValid c = false) cs ->
  kindCheckedFirst (CallIsValidType k v :: CallIsValid k v :: cs).
Proof.
  intros Hall l1 l2 k' v' Heq.
  destruct l1 as [|c1 [|c2 l1]]; simplify_eq/=.
  - set_solver.
  - apply Forall_app in Hall as [_ Hall]. inversion Hall; subst. discriminate.
Qed.

Ltac order_calls :=
  first [ apply kindCheckedFirst_other; solve [repeat constructor]
        | apply kindCheckedFirst_asked; solve [repeat constructor]
        | apply kindCheckedFirst_round; order_calls ].

(** *** The loop over the declared query parameters *)

Lemma checkQueryParameter_inv rid q k qp acc st fl st' :
  checkQueryParameter rid q k qp acc st = (fl, st') ->
  let v := effective q k qp in
  objects st' = objects st
  /\ (exists cs, calls st' = calls st ++ cs
               /\ Forall (validationCall k v (IsValidType qp v)) cs
               /\ kindCheckedFirst cs)
  /\ match fl with
     | Next m =>
         m = <[k := v]> acc /\ writer st' = writer st
         /\ IsValidType qp v = true /\ formatAccepts qp v = true
     | Leave x =>
         exists message,
           writer st'
           = renderResourceResult (writer st)
               {| HttpStatus := StatusBadRequest; Body := Some message |}
               "text/plain" rid
           /\ rejection rid q k qp x message
     end.
Proof.
  unfold checkQueryParameter, effective, formatAccepts, rejection, effective.
  unfold_serve. simpl.
  case_bool_decide as Hget; simpl.
  all: destruct (IsValidType qp _) eqn:Hkind; simpl.
  all: destruct (FormatValidator qp) as [validator|] eqn:Hfmt; simpl.
  all: try destruct (IsValid validator _) eqn:Hvalid; simpl.
  all: rewrite ?Hkind; simpl; rewrite ?Hvalid; simpl.
  all: intros Heq; inversion Heq; subst; clear Heq; simpl.
  all: split; [reflexivity|].
  all: split;
    [eexists; split;
       [rewrite <- ?app_assoc; reflexivity
       | split; [repeat constructor; simpl; done|]]|].
  all: simpl; try order_calls.
  all: try done.
  all: eexists; split; [reflexivity|]; eauto 10.
Qed.

Lemma checkQueryParameters_inv rid q entries acc st fl st' :
  checkQueryParameters rid q entries acc st = (fl, st') ->
  objects st' = objects st
  /\ (exists cs, calls st' = calls st ++ cs
               /\ Forall (queryCall q entries) cs
               /\ kindCheckedFirst cs)
  /\ match fl with
     | Next m =>
         m = delivered q entries acc /\ writer st' = writer st
         /\ (forall k qp, (k, qp) ∈ entries ->
              IsValidType qp (effective q k qp) = true
              /\ formatAccepts qp (effective q k qp) = true)
     | Leave x =>
         exists message k qp,
           (k, qp) ∈ entries
           /\ writer st'
              = renderResourceResult (writer st)
                  {| HttpStatus := StatusBadRequest; Body := Some message |}
                  "text/plain" rid
           /\ rejection rid q k qp x message
     end.
Proof.
  revert acc st fl st'.
  induction entries as [|[k qp] entries IH]; intros acc st fl st' Hrun.
  - inversion Hrun; subst. split; [reflexivity|].
    split.
    { exists []. rewrite app_nil_r. split; [done|]. split; [constructor|].
      apply kindCheckedFirst_other. constructor. }
    split; [reflexivity|]. split; [reflexivity|].
    intros k qp Hin. inversion Hin.
  - simpl in Hrun. unfold mbind, Serve_bind, serve_bind in Hrun.
    destruct (checkQueryParameter rid q k qp acc st) as [[m|x] st1] eqn:Hstep.
    + apply checkQueryParameter_inv in Hstep
        as (Hobj & (cs & Hcs & Hall & Hord) & Hm).
      destruct Hm as (-> & Hw & Hkind & Hfmt).
      apply IH in Hrun as (Hobj' & (cs' & Hcs' & Hall' & Hord') & Hfl).
      split; [congruence|].
      split.
      { exists (cs ++ cs'). split; [rewrite Hcs', Hcs, app_assoc; done|].
        split; [|apply kindCheckedFirst_app; assumption].
        apply Forall_app. split.
        - eapply Forall_impl; [exact Hall|]. intros c Hc.
          exists k, qp. split; [left | exact Hc].
        - eapply Forall_impl; [exact Hall'|]. intros c (k' & qp' & Hin & Hc).
          exists k', qp'. split; [right; exact Hin | exact Hc]. }
      destruct fl as [m|x].
      * destruct Hfl as (-> & Hw' & Hok).
        split; [reflexivity|]. split; [congruence|].
        intros k' qp' Hin. apply elem_of_cons in Hin as [[= -> ->]|Hin]; eauto.
      * destruct Hfl as (message & k' & qp' & Hin & Hw' & Hrej).
        exists message, k', qp'. split; [right; exact Hin|].
        split; [congruence | exact Hrej].
    + inversion Hrun; subst.
      apply checkQueryParameter_inv in Hstep
        as (Hobj & (cs & Hcs & Hall & Hord) & Hm).
      split; [exact Hobj|].
      split.
      { exists cs. split; [exact Hcs|]. split; [|exact Hord].
        eapply Forall_impl; [exact Hall|]. intros c Hc.
        exists k, qp. split; [left | exact Hc]. }
      destruct Hm as (message & Hw & Hrej).
      exists message, k, qp. split; [left|]. split; assumption.
Qed.

(** With distinct keys the map handed to the handler holds, under each
    declared key, the value the loop has worked with. *)
Lemma delivered_lookup q entries acc k qp :
  NoDup entries.*1 -> (k, qp) ∈ entries ->
  delivered q entries acc !! k = Some (effective q k qp).
Proof.
  unfold delivered. revert acc.
  induction entries as [|[k' qp'] entries IH]; intros acc Hnd Hin.
  - inversion Hin.
  - simpl in *. apply NoDup_cons in Hnd as [Hfresh Hnd].
    apply elem_of_cons in Hin as [[= -> ->]|Hin].
    + clear IH. revert acc. induction entries as [|[k1 qp1] entries IH]; intros acc.
      * simpl. apply lookup_insert_eq.
      * simpl in *. apply not_elem_of_cons in Hfresh as [Hne Hfresh].
        apply NoDup_cons in Hnd as [_ Hnd].
        rewrite insert_insert_ne by done. apply IH; assumption.
    + apply IH; assumption.
Qed.

Lemma rangeOrder_NoDup (m : gmap string QueryParameter) :
  NoDup (rangeOrder m).*1.
Proof.
  rewrite (rangeOrder_perm m). apply NoDup_fst_map_to_list.
Qed.

Lemma rangeOrder_elem_of (m : gmap string QueryParameter) k qp :
  (k, qp) ∈ rangeOrder m <-> m !! k = Some qp.
Proof.
  rewrite (rangeOrder_perm m). apply elem_of_map_to_list.
Qed.

(** *** What the calls of the loop say *)

Lemma queryCall_not_execute q entries c :
  queryCall q entries c -> isExecute c = false.
Proof. intros (k & qp & _ & Hc). destruct c; simpl in *; done. Qed.

Lemma queryCall_IsValid q (m : gmap string QueryParameter) k qp v' :
  m !! k = Some qp ->
  queryCall q (rangeOrder m) (CallIsValid k v') ->
  v' = effective q k qp /\ IsValidType qp (effective q k qp) = true.
Proof.
  intros Hk (k' & qp' & Hin & <- & -> & Hok).
  apply rangeOrder_elem_of in Hin. rewrite Hk in Hin. injection Hin as <-.
  split; [reflexivity | exact Hok].
Qed.

Lemma resolveCalls_not_execute request :
  Forall (fun c => isExecute c = false) (resolveCalls request).
Proof. unfold resolveCalls. repeat constructor. Qed.

Lemma elem_of_served_calls request cs c :
  c ∈ resolveCalls request ++ CallReadAll :: cs ->
  isValidation c = true -> c ∈ cs.
Proof.
  intros Hin Hc. apply elem_of_app in Hin as [Hin|Hin].
  - unfold resolveCalls in Hin.
    repeat (apply elem_of_cons in Hin as [->|Hin]; [discriminate Hc|]).
    inversion Hin.
  - apply elem_of_cons in Hin as [->|Hin]; [discriminate Hc | exact Hin].
Qed.

Lemma queryCall_IsValidType q (m : gmap string QueryParameter) k qp v' :
  m !! k = Some qp ->
  queryCall q (rangeOrder m) (CallIsValidType k v') ->
  v' = effective q k qp.
Proof.
  intros Hk (k' & qp' & Hin & <- & ->).
  apply rangeOrder_elem_of in Hin. rewrite Hk in Hin. injection Hin as <-.
  reflexivity.
Qed.

Lemma kindCheckedFirst_served request cs :
  kindCheckedFirst cs ->
  kindCheckedFirst (resolveCalls request ++ CallReadAll :: cs).
Proof.
  intros Hcs. apply kindCheckedFirst_app.
  - apply kindCheckedFirst_other. unfold resolveCalls. repeat constructor.
  - apply (kindCheckedFirst_app [_] cs); [|exact Hcs].
    apply kindCheckedFirst_other. repeat constructor.
Qed.

(** *** The first half of the dispatcher *)

Lemma resolve_inv s request now st fl st' :
  resolve s request now st = (fl, st') ->
  objects st' = objects st
  /\ (exists cs, calls st' = calls st ++ cs
               /\ Forall (fun c => isExecute c = false) cs)
  /\ match fl with
     | Next r =>
         writer st' = writer st
         /\ calls st' = calls st ++ resolveCalls request
         /\ is_Some (matchingResource r)
         /\ requestId r = requestIdOf s now
         /\ forDocumentation s request = false
     | Leave x =>
         match x with
         | ExitDocumentation => writer st' = serveDocumentation (writer st)
         | ExitNilEndpoint => False
         | ExitRouteError | ExitRouteNotFound | ExitNoEndpoint
         | ExitInvalidContentType | ExitInvalidAccept | ExitNoAcceptElement
         | ExitNoResource | ExitNoMatchingResource =>
             exists message,
               writer st'
               = renderResourceResult (writer st)
                   {| HttpStatus := exitStatus x; Body := Some message |}
                   "text/plain" (requestIdOf s now)
         | _ => False
         end
     end.
Proof.
  unfold resolve, forDocumentation. fold (requestIdOf s now).
  generalize (requestIdOf s now). intros rid.
  unfold_serve. simpl.
  intros Hrun.
  destruct (documentationEndpointEnabled s && _) eqn:Hdoc; simpl in Hrun;
    [by_leave Hrun|].
  destruct (FindNodeByRoute _ _) as [[node0 rv] err] eqn:Hfind; simpl in Hrun.
  destruct err as [message|]; simpl in Hrun; [by_leave Hrun|].
  destruct node0 as [node0|]; simpl in Hrun; [|by_leave Hrun].
  destruct (GetEndpoint node0) as [endp|] eqn:Hendp; simpl in Hrun;
    [|by_leave Hrun].
  destruct (newContentTypeHeaderParser _) as [ctp err] eqn:Hct; simpl in Hrun.
  destruct err as [message|]; simpl in Hrun; [by_leave Hrun|].
  destruct (newAcceptHeaderParser _) as [acp err] eqn:Hac; simpl in Hrun.
  destruct err as [message|]; simpl in Hrun; [by_leave Hrun|].
  destruct (HasAcceptElement acp) eqn:Hhas; simpl in Hrun; [|by_leave Hrun].
  destruct (bool_decide (length (GetResourceHandlers endp) = 0%nat)) eqn:Hlen;
    simpl in Hrun; [by_leave Hrun|].
  destruct (FindMatchingResource _ _ _ _) as [[mr cIn] cOut] eqn:Hmatch;
    simpl in Hrun.
  destruct mr as [mr|]; simpl in Hrun; [|by_leave Hrun].
  inversion Hrun; subst; clear Hrun; simpl.
  split; [reflexivity|].
  split; [eexists; split;
            [rewrite <- ?app_assoc; reflexivity | repeat constructor]|].
  unfold resolveCalls. rewrite <- ?app_assoc. simpl. eauto 10.
Qed.

(** *** The second half of the dispatcher *)

Lemma serve_inv s request r h st fl st' :
  matchingResource r = Some h ->
  serve s request r st = (fl, st') ->
  let q := URL_Query request in
  let entries := rangeOrder (rhQueryParameters h) in
  exists cs,
    calls st' = calls st ++ CallReadAll :: cs
    /\ kindCheckedFirst cs
    /\ match exitOf fl with
       | ExitBodyUnreadable =>
           cs = [] /\ objects st' = objects st
           /\ (reqBody request).2 <> None
           /\ exists message,
                writer st'
                = errorResponse StatusInternalServerError message (requestId r)
                    (writer st)
       | ExitBodyNotAllowed =>
           cs = [] /\ objects st' = objects st
           /\ (reqBody request).2 = None /\ contentTypeIn r = None
           /\ (reqBody request).1 <> ""%string
           /\ exists message,
                writer st'
                = errorResponse StatusBadRequest message (requestId r)
                    (writer st)
       | ExitDefaultValueKind _ | ExitValueKind _ | ExitValueFormat _ =>
           Forall (queryCall q entries) cs /\ objects st' = objects st
           /\ exists message k qp,
                (k, qp) ∈ entries
                /\ writer st'
                   = errorResponse StatusBadRequest message (requestId r)
                       (writer st)
                /\ rejection (requestId r) q k qp (exitOf fl) message
       | ExitNilImplementation =>
           Forall (queryCall q entries) cs /\ objects st' = objects st
           /\ writer st' = writer st
           /\ objects st !! Implementation h = None
           /\ (forall k qp, (k, qp) ∈ entries ->
                IsValidType qp (effective q k qp) = true
                /\ formatAccepts qp (effective q k qp) = true)
       | ExitServed | ExitNilContentTypeOut | ExitWriteHeaderPanic =>
           exists cs' o result o' context',
             cs = cs' ++ [CallExecute (Implementation h)
                            (contextOf s request r (delivered q entries ∅))]
             /\ Forall (queryCall q entries) cs'
             /\ (forall k qp, (k, qp) ∈ entries ->
                  IsValidType qp (effective q k qp) = true
                  /\ formatAccepts qp (effective q k qp) = true)
             /\ objects st !! Implementation h = Some o
             /\ Execute o (contextOf s request r (delivered q entries ∅))
                = (result, o', context')
             /\ objects st' = <[Implementation h := o']> (objects st)
             /\ match exitOf fl with
                | ExitServed =>
                    exists contentType,
                      ContentTypeOut context' = Some contentType
                      /\ writer st'
                         = renderResourceResult (writer st) result contentType
                             (requestId r)
                      /\ checkWriteHeaderCode (HttpStatus result) = true
                | ExitWriteHeaderPanic =>
                    exists contentType,
                      ContentTypeOut context' = Some contentType
                      /\ writer st'
                         = renderResourceResult (writer st) result contentType
                             (requestId r)
                      /\ checkWriteHeaderCode (HttpStatus result) = false
                | _ => ContentTypeOut context' = None
                       /\ writer st' = writer st
                end
       | _ => False
       end.
Proof.
  intros Hh. unfold serve, errorResponse, contextOf. rewrite Hh.
  unfold_serve. simpl.
  destruct (reqBody request) as [b err] eqn:Hbody; simpl.
  destruct err as [e|]; simpl.
  { intros Hrun; inversion Hrun; subst; clear Hrun; simpl.
    exists []. split; [reflexivity|]. split; [order_calls|]. eauto 10. }
  destruct (isNil (contentTypeIn r) && (0 <? Len b)) eqn:Hallowed; simpl.
  { intros Hrun; inversion Hrun; subst; clear Hrun; simpl.
    apply andb_true_iff in Hallowed as [Hnil Hlen].
    rewrite Len_pos in Hlen. apply negb_true_iff, bool_decide_eq_false in Hlen.
    exists []. split; [reflexivity|]. split; [order_calls|].
    destruct (contentTypeIn r); [discriminate|]. eauto 10. }
  destruct (checkQueryParameters _ _ _ _ _) as [[m|x] st1] eqn:Hloop.
  - apply checkQueryParameters_inv in Hloop
      as (Hobj & (cs & Hcs & Hall & Hord) & -> & Hw & Hok).
    simpl in Hobj, Hcs, Hw.
    unfold execute. rewrite Hobj.
    destruct (objects st !! Implementation h) as [o|] eqn:Ho.
    2:{ intros Hrun; inversion Hrun; subst; clear Hrun; simpl.
        exists cs. rewrite Hcs, <- app_assoc. eauto 10. }
    assert (Hord' : forall c, kindCheckedFirst (cs ++ [CallExecute (Implementation h) c])).
    { intros c. apply kindCheckedFirst_app; [exact Hord | order_calls]. }
    destruct (Execute o _) as [[result o'] context'] eqn:Hexec.
    destruct (ContentTypeOut context') as [contentType|] eqn:Hout;
      [destruct (checkWriteHeaderCode (HttpStatus result)) eqn:Hcode|].
    all: simpl; intros Hrun; inversion Hrun; subst; clear Hrun; simpl.
    all: exists (cs ++ [CallExecute (Implementation h)
                          (contextOf s request r
                             (delivered (URL_Query request)
                                (rangeOrder (rhQueryParameters h)) ∅))]).
    all: unfold contextOf; rewrite Hbody, Hcs, <- !app_assoc; simpl.
    all: split; [reflexivity|].
    all: split; [apply Hord'|].
    all: exists cs, o, result, o', context'; rewrite Hw; eauto 12.
  - apply checkQueryParameters_inv in Hloop
      as (Hobj & (cs & Hcs & Hall & Hord) & message & k & qp & Hin & Hw & Hrej).
    simpl in Hobj, Hcs, Hw.
    intros Hrun; inversion Hrun; subst; clear Hrun; simpl.
    exists cs. rewrite Hcs, <- app_assoc. split; [reflexivity|].
    split; [exact Hord|].
    destruct Hrej as [Hrej | [Hrej | Hrej]];
      pose proof Hrej as (-> & _); simpl.
    + split; [done|]. split; [done|]. exists message, k, qp.
      split; [done|]. split; [done|]. left. exact Hrej.
    + split; [done|]. split; [done|]. exists message, k, qp.
      split; [done|]. split; [done|]. right. left. exact Hrej.
    + split; [done|]. split; [done|]. exists message, k, qp.
      split; [done|]. split; [done|]. right. right. exact Hrej.
Qed.

Lemma serve_calls s request r h st fl st' :
  matchingResource r = Some h ->
  serve s request r st = (fl, st') ->
  let q := URL_Query request in
  let entries := rangeOrder (rhQueryParameters h) in
  exists cs,
    calls st' = calls st ++ CallReadAll :: cs
    /\ kindCheckedFirst cs
    /\ (forall c, c ∈ cs -> isExecute c = false -> queryCall q entries c)
    /\ (exitOf fl <> ExitServed -> exitOf fl <> ExitNilContentTypeOut ->
        exitOf fl <> ExitWriteHeaderPanic ->
        Forall (fun c => isExecute c = false) cs /\ objects st' = objects st).
Proof.
  intros Hh Hserve q entries.
  apply (serve_inv _ _ _ _ _ _ _ Hh) in Hserve as (cs & Hcs & Hord & Hexit).
  exists cs. split; [exact Hcs|]. split; [exact Hord|].
  fold q entries in Hexit.
  assert (Hall : forall l, Forall (queryCall q entries) l ->
            (forall c, c ∈ l -> isExecute c = false -> queryCall q entries c)
            /\ Forall (fun c => isExecute c = false) l).
  { intros l Hl. split.
    - intros c Hc _. eapply Forall_forall in Hl; eauto.
    - eapply Forall_impl; [exact Hl|]. apply queryCall_not_execute. }
  destruct (exitOf fl) eqn:Hx; try contradiction.
  - destruct Hexit as (-> & Hobj & _). split; [|done].
    intros c Hc. inversion Hc.
  - destruct Hexit as (-> & Hobj & _). split; [|done].
    intros c Hc. inversion Hc.
  - destruct Hexit as (Hq & Hobj & _). apply Hall in Hq as [? ?]. done.
  - destruct Hexit as (Hq & Hobj & _). apply Hall in Hq as [? ?]. done.
  - destruct Hexit as (Hq & Hobj & _). apply Hall in Hq as [? ?]. done.
  - destruct Hexit as (cs' & o & result & o' & c' & -> & Hq & _).
    apply Hall in Hq as [Hq _]. split; [|done].
    intros c Hc Hv. apply elem_of_app in Hc as [Hc|Hc]; [auto|].
    apply list_elem_of_singleton in Hc as ->. discriminate.
  - destruct Hexit as (Hq & Hobj & _). apply Hall in Hq as [? ?]. done.
  - destruct Hexit as (cs' & o & result & o' & c' & -> & Hq & _).
    apply Hall in Hq as [Hq _]. split; [|done].
    intros c Hc Hv. apply elem_of_app in Hc as [Hc|Hc]; [auto|].
    apply list_elem_of_singleton in Hc as ->. discriminate.
  - destruct Hexit as (cs' & o & result & o' & c' & -> & Hq & _).
    apply Hall in Hq as [Hq _]. split; [|done].
    intros c Hc Hv. apply elem_of_app in Hc as [Hc|Hc]; [auto|].
    apply list_elem_of_singleton in Hc as ->. discriminate.
Qed.

(** *** The whole call *)

Lemma ServeHTTP_resolved s request now st r st1 :
  resolve s request now st = (Next r, st1) ->
  ServeHTTP s request now st
  = (exitOf (serve s request r st1).1, (serve s request r st1).2).
Proof.
  intros Hres. unfold ServeHTTP, ServeHTTP_body, mbind, Serve_bind, serve_bind.
  rewrite Hres. destruct (serve s request r st1) as [[[]|x] st']; reflexivity.
Qed.

Lemma ServeHTTP_left s request now st x st1 :
  resolve s request now st = (Leave x, st1) ->
  ServeHTTP s request now st = (x, st1).
Proof.
  intros Hres. unfold ServeHTTP, ServeHTTP_body, mbind, Serve_bind, serve_bind.
  rewrite Hres. reflexivity.
Qed.

Lemma errorResponse_status status message rid w :
  checkWriteHeaderCode status = true ->
  wStatus (errorResponse status message rid w) = wStatus w ++ [status].
Proof. intros Hcode. apply renderResourceResult_status. exact Hcode. Qed.

Lemma errorResponse_body status message rid w :
  checkWriteHeaderCode status = true ->
  message <> ""%string ->
  wBody (errorResponse status message rid w) = wBody w +:+ message.
Proof.
  intros Hcode Hne. unfold errorResponse, renderResourceResult, WriteHeader.
  simpl. rewrite Hcode.
  rewrite Len_pos, bool_decide_eq_false_2 by exact Hne. reflexivity.
Qed.

(** C8: no call of the dispatcher leaves through the branch that reports
    "Resource factory must instanciate a valid Resource": the value it
    tests for nil is the one [resolve] hands over only when it is not
    nil. *)
Theorem no_instance_branch_unreachable s request now st :
  (ServeHTTP s request now st).1 <> ExitNoInstance.
Proof.
  destruct (resolve s request now st) as [[r|x] st1] eqn:Hres.
  - rewrite (ServeHTTP_resolved _ _ _ _ _ _ Hres). simpl.
    apply resolve_inv in Hres as (_ & _ & _ & _ & [h Hh] & _).
    destruct (serve s request r st1) as [fl st'] eqn:Hserve.
    apply (serve_inv _ _ _ _ _ _ _ Hh) in Hserve as (cs & _ & _ & Hexit).
    simpl. intros Hx. rewrite Hx in Hexit. exact Hexit.
  - rewrite (ServeHTTP_left _ _ _ _ _ _ Hres). simpl.
    apply resolve_inv in Hres as (_ & _ & Hx).
    intros ->. exact Hx.
Qed.

(** C4: when the router is asked (the request is not the one for the
    documentation, which bypasses the router) and returns no node, the
    call returns normally with the single status 400 written, and the
    router lookup is the only call made: no endpoint, no handler. *)
Theorem unmatched_route_rejected s request now w objs routeVars err :
  forDocumentation s request = false ->
  FindNodeByRoute (router_ s) (URL_Path request) = (None, routeVars, err) ->
  let out := ServeHTTP s request now (start w objs) in
  (out.1 = ExitRouteNotFound \/ out.1 = ExitRouteError)
  /\ wStatus (writer out.2) = wStatus w ++ [StatusBadRequest]
  /\ calls out.2 = [CallFindNodeByRoute (URL_Path request)]
  /\ objects out.2 = objs.
Proof.
  intros Hdoc Hfind out. subst out. unfold forDocumentation in Hdoc.
  unfold ServeHTTP, ServeHTTP_body, resolve, start. unfold_serve. simpl.
  rewrite Hdoc, Hfind. simpl.
  destruct err as [message|]; simpl;
    rewrite ?renderResourceResult_status; repeat split; auto.
Qed.

(** C5: when the Accept header of the request parses to a preference list
    without an element, [FindMatchingResource] is not called and no
    handler is executed; and once the dispatcher has come to parse that
    header, the call ends with the single status 400 written, at the
    [return] for an Accept header without a valid element (or at the one
    for an Accept header the parser reports as invalid). *)
Theorem no_accept_element_rejected s request now w objs :
  HasAcceptElement
    (newAcceptHeaderParser (Get (reqHeader request) "Accept")).1 = false ->
  let out := ServeHTTP s request now (start w objs) in
  Forall (fun c => isFindMatchingResource c = false) (calls out.2)
  /\ Forall (fun c => isExecute c = false) (calls out.2)
  /\ (CallNewAcceptHeaderParser (Get (reqHeader request) "Accept")
        ∈ calls out.2 ->
      (out.1 = ExitNoAcceptElement \/ out.1 = ExitInvalidAccept)
      /\ wStatus (writer out.2) = wStatus w ++ [StatusBadRequest]
      /\ objects out.2 = objs).
Proof.
  intros Hhas out. subst out.
  unfold ServeHTTP, ServeHTTP_body, resolve, start. unfold_serve. simpl.
  destruct (documentationEndpointEnabled s && _); simpl; [by_reject|].
  destruct (FindNodeByRoute _ _) as [[node0 rv] err]; simpl.
  destruct err as [message|]; simpl; [by_reject|].
  destruct node0 as [node0|]; simpl; [|by_reject].
  destruct (GetEndpoint node0) as [endp|]; simpl; [|by_reject].
  destruct (newContentTypeHeaderParser _) as [ctp err]; simpl.
  destruct err as [message|]; simpl; [by_reject|].
  destruct (newAcceptHeaderParser _) as [acp err]; simpl in *.
  rewrite Hhas.
  destruct err as [message|]; simpl.
  all: rewrite ?renderResourceResult_status.
  all: split; [repeat constructor|]; split; [repeat constructor|].
  all: intros _; repeat split; auto.
Qed.

(** C6: when the request has been matched to a resource handler with no
    input content type ([contentTypeIn] is nil) and its body, read without
    error, is not empty, the call ends at the [return] for a body that is
    not allowed: the single status 400 is written with the message "Body
    is not allowed for this resource", and the handler is not executed. *)
Theorem body_not_allowed s request now w objs r st1 b :
  resolve s request now (start w objs) = (Next r, st1) ->
  contentTypeIn r = None ->
  reqBody request = (b, None) ->
  b <> ""%string ->
  let out := ServeHTTP s request now (start w objs) in
  out.1 = ExitBodyNotAllowed
  /\ wStatus (writer out.2) = wStatus w ++ [StatusBadRequest]
  /\ wBody (writer out.2)
     = wBody w +:+ "[" +:+ requestIdOf s now
       +:+ "] Body is not allowed for this resource"
  /\ Forall (fun c => isExecute c = false) (calls out.2)
  /\ objects out.2 = objs.
Proof.
  intros Hres HcIn Hbody Hb out. subst out.
  rewrite (ServeHTTP_resolved _ _ _ _ _ _ Hres).
  apply resolve_inv in Hres as (Hobj & _ & Hw & Hcalls & _ & Hrid & _).
  simpl in Hobj, Hw, Hcalls.
  unfold serve. unfold_serve. simpl.
  rewrite Hbody, HcIn. simpl.
  rewrite Len_pos, bool_decide_eq_false_2 by exact Hb. simpl.
  rewrite Hw, Hobj, Hcalls, Hrid.
  repeat split. unfold resolveCalls. repeat constructor.
Qed.

(** The shape of a call that has come to the second half. *)
Lemma ServeHTTP_served_inv s request now w objs r st1 h :
  resolve s request now (start w objs) = (Next r, st1) ->
  matchingResource r = Some h ->
  let out := ServeHTTP s request now (start w objs) in
  exists fl st',
    serve s request r
      {| writer := w; objects := objs; calls := resolveCalls request |}
    = (fl, st')
    /\ out = (exitOf fl, st') /\ requestId r = requestIdOf s now.
Proof.
  intros Hres Hh out. subst out.
  rewrite (ServeHTTP_resolved _ _ _ _ _ _ Hres).
  apply resolve_inv in Hres as (Hobj & _ & Hw & Hcalls & _ & Hrid & _).
  simpl in Hobj, Hw, Hcalls.
  destruct st1 as [w1 o1 c1]. simpl in *. subst.
  destruct (serve _ _ _ _) as [fl st'] eqn:Hserve. eauto.
Qed.

(** A round of the loop that leaves the function has refused the value
    it has worked with, and its message is not empty. *)
Lemma rejection_refused rid q k qp x message :
  rejection rid q k qp x message ->
  (IsValidType qp (effective q k qp) = false
   \/ formatAccepts qp (effective q k qp) = false)
  /\ message <> ""%string.
Proof.
  unfold rejection, effective, formatAccepts.
  intros [(_ & Hget & Hkind & ->)
         |[(_ & Hget & Hkind & ->)
          |(_ & Hkind & validator & Hfv & Hvalid & ->)]].
  - rewrite bool_decide_eq_true_2 by exact Hget. split; [auto | discriminate].
  - rewrite bool_decide_eq_false_2 by exact Hget.
    split; [auto | discriminate].
  - rewrite Hfv. split; [auto | discriminate].
Qed.

(** C7: for a request matched to a handler that declares the query
    parameter [k], with a value [v] for [k] in the query string:
    the format validator is only asked after the kind check of the same
    value, and only when that check has passed.  A value of the wrong
    kind ends the call with status 400, a value the format validator
    refuses ends it with status 400 and the validator's own message in
    the body; in both cases the handler is not executed.  Once the body
    has been read and is allowed, a value that fails either check is
    always answered: the call ends in the round of a declared parameter
    that the loop has refused, with the single status 400 and the message
    of that round as the body, and that round is the one of [k], with the
    message of the kind check or the validator's own message, when every
    other declared parameter passes.  The handler is only ever executed
    with the string [v] under [k] in the map of its context, and it is
    executed, with every declared value in the map, when the body is
    allowed, every declared parameter passes and the handler has an
    implementation. *)
Theorem present_query_parameter_checked s request now w objs r st1 h k qp :
  resolve s request now (start w objs) = (Next r, st1) ->
  matchingResource r = Some h ->
  rhQueryParameters h !! k = Some qp ->
  Get (URL_Query request) k <> ""%string ->
  let v := Get (URL_Query request) k in
  let out := ServeHTTP s request now (start w objs) in
  kindCheckedFirst (calls out.2)
  /\ (forall v', CallIsValid k v' ∈ calls out.2 ->
       v' = v /\ IsValidType qp v = true)
  /\ (out.1 = ExitValueKind k ->
      IsValidType qp v = false
      /\ wStatus (writer out.2) = wStatus w ++ [StatusBadRequest])
  /\ (out.1 = ExitValueFormat k ->
      IsValidType qp v = true
      /\ exists validator,
           FormatValidator qp = Some validator
           /\ IsValid validator v = false
           /\ wStatus (writer out.2) = wStatus w ++ [StatusBadRequest]
           /\ wBody (writer out.2)
              = wBody w +:+ "[" +:+ requestIdOf s now
                +:+ "] Invalid Query Parameter, "
                +:+ GetErrorMessage validator)
  /\ (IsValidType qp v = false \/ formatAccepts qp v = false ->
      out.1 <> ExitServed
      /\ Forall (fun c => isExecute c = false) (calls out.2)
      /\ objects out.2 = objs)
  /\ (out.1 = ExitServed ->
      IsValidType qp v = true /\ formatAccepts qp v = true
      /\ exists cs context,
           calls out.2 = cs ++ [CallExecute (Implementation h) context]
           /\ QueryParameters context !! k = Some v)
  /\ (bodyAccepted request r ->
      IsValidType qp v = false \/ formatAccepts qp v = false ->
      exists k' qp' message,
        rhQueryParameters h !! k' = Some qp'
        /\ rejection (requestIdOf s now) (URL_Query request) k' qp'
             out.1 message
        /\ wStatus (writer out.2) = wStatus w ++ [StatusBadRequest]
        /\ wBody (writer out.2) = wBody w +:+ message)
  /\ (bodyAccepted request r ->
      (forall k' qp',
         k' <> k -> rhQueryParameters h !! k' = Some qp' ->
         IsValidType qp' (effective (URL_Query request) k' qp') = true
         /\ formatAccepts qp' (effective (URL_Query request) k' qp') = true) ->
      (IsValidType qp v = false ->
       out.1 = ExitValueKind k
       /\ wStatus (writer out.2) = wStatus w ++ [StatusBadRequest]
       /\ wBody (writer out.2)
          = wBody w +:+ "[" +:+ requestIdOf s now +:+ "] Query parameter "
            +:+ k +:+ " must be of kind " +:+ Kind qp)
      /\ (forall validator,
            IsValidType qp v = true ->
            FormatValidator qp = Some validator ->
            IsValid validator v = false ->
            out.1 = ExitValueFormat k
            /\ wStatus (writer out.2) = wStatus w ++ [StatusBadRequest]
            /\ wBody (writer out.2)
               = wBody w +:+ "[" +:+ requestIdOf s now
                 +:+ "] Invalid Query Parameter, "
                 +:+ GetErrorMessage validator))
  /\ (forall l context,
        CallExecute l context ∈ calls out.2 ->
        l = Implementation h
        /\ QueryParameters context !! k = Some v
        /\ IsValidType qp v = true /\ formatAccepts qp v = true)
  /\ (bodyAccepted request r ->
      parametersAccepted request h ->
      is_Some (objs !! Implementation h) ->
      exists cs context,
        calls out.2 = cs ++ [CallExecute (Implementation h) context]
        /\ forall k' qp',
             rhQueryParameters h !! k' = Some qp' ->
             QueryParameters context !! k'
             = Some (effective (URL_Query request) k' qp')).
Proof.
  intros Hres Hh Hk Hget v out.
  destruct (ServeHTTP_served_inv _ _ _ _ _ _ _ _ Hres Hh)
    as (fl & st' & Hserve & Hout & Hrid).
  fold out in Hout. rewrite Hout. clear out Hout. simpl.
  pose proof (serve_inv _ _ _ _ _ _ _ Hh Hserve) as (cs & Hcs & Hord & Hexit).
  pose proof (serve_calls _ _ _ _ _ _ _ Hh Hserve)
    as (cs2 & Hcs2 & _ & Hq & Hnoexec).
  rewrite Hcs in Hcs2. apply app_inv_head in Hcs2. injection Hcs2 as <-.
  change (calls st' = resolveCalls request ++ CallReadAll :: cs) in Hcs.
  simpl in Hexit, Hnoexec. rewrite Hrid in Hexit.
  set (q := URL_Query request) in *.
  set (entries := rangeOrder (rhQueryParameters h)) in *.
  set (rid := requestIdOf s now) in *.
  assert (Heff : effective q k qp = v).
  { unfold effective. rewrite bool_decide_eq_false_2 by exact Hget. done. }
  assert (Huniq : forall qp', (k, qp') ∈ entries -> qp' = qp).
  { intros qp' Hin'. apply rangeOrder_elem_of in Hin'. congruence. }
  assert (Hin : (k, qp) ∈ entries) by (apply rangeOrder_elem_of; exact Hk).
  (* an execution: the exit, and the call it has added *)
  assert (Hexecuted :
            exitOf fl = ExitServed \/ exitOf fl = ExitNilContentTypeOut
            \/ exitOf fl = ExitWriteHeaderPanic ->
            (forall k' qp', (k', qp') ∈ entries ->
               IsValidType qp' (effective q k' qp') = true
               /\ formatAccepts qp' (effective q k' qp') = true)
            /\ exists cs',
                 cs = cs' ++ [CallExecute (Implementation h)
                                (contextOf s request r (delivered q entries ∅))]
                 /\ Forall (fun c => isExecute c = false) cs').
  { intros Hx.
    assert (Hshape : exists cs',
              cs = cs' ++ [CallExecute (Implementation h)
                             (contextOf s request r (delivered q entries ∅))]
              /\ Forall (queryCall q entries) cs'
              /\ (forall k' qp', (k', qp') ∈ entries ->
                    IsValidType qp' (effective q k' qp') = true
                    /\ formatAccepts qp' (effective q k' qp') = true)).
    { destruct Hx as [Hx|[Hx|Hx]]; rewrite Hx in Hexit;
        destruct Hexit as (cs' & o & result & o' & c' & ? & ? & ? & _);
        eauto 10. }
    destruct Hshape as (cs' & -> & Hall & Hok).
    split; [exact Hok|]. exists cs'. split; [reflexivity|].
    eapply Forall_impl; [exact Hall|]. apply queryCall_not_execute. }
  (* no execution: the loop or the body has ended the call *)
  assert (Hrefused :
            (exists k' qp', (k', qp') ∈ entries
               /\ (IsValidType qp' (effective q k' qp') = false
                   \/ formatAccepts qp' (effective q k' qp') = false)) ->
            exitOf fl <> ExitServed /\ exitOf fl <> ExitNilContentTypeOut
            /\ exitOf fl <> ExitWriteHeaderPanic).
  { intros (k' & qp' & Hin' & Hbad).
    assert (Hno : ~ (exitOf fl = ExitServed \/ exitOf fl = ExitNilContentTypeOut
                     \/ exitOf fl = ExitWriteHeaderPanic)).
    { intros Hx. apply Hexecuted in Hx as [Hok _].
      destruct (Hok _ _ Hin') as [? ?]. destruct Hbad; congruence. }
    repeat split; intros Hx; apply Hno; auto. }
  (* with the body allowed, a refused value ends the call in the loop *)
  assert (Hloop :
            bodyAccepted request r ->
            (exists k' qp', (k', qp') ∈ entries
               /\ (IsValidType qp' (effective q k' qp') = false
                   \/ formatAccepts qp' (effective q k' qp') = false)) ->
            exists message k' qp',
              (k', qp') ∈ entries
              /\ writer st' = errorResponse StatusBadRequest message rid w
              /\ rejection rid q k' qp' (exitOf fl) message).
  { intros [Hberr Hbody] Hbad.
    pose proof (Hrefused Hbad) as (Hx1 & Hx2 & Hx3).
    destruct Hbad as (k' & qp' & Hin' & Hbad).
    destruct (exitOf fl) eqn:Hx; try contradiction; try congruence.
    - destruct Hexit as (_ & _ & Herr & _). contradiction.
    - destruct Hexit as (_ & _ & _ & HcIn & Hb & _). exfalso. auto.
    - destruct Hexit as (_ & _ & Hmsg). exact Hmsg.
    - destruct Hexit as (_ & _ & Hmsg). exact Hmsg.
    - destruct Hexit as (_ & _ & Hmsg). exact Hmsg.
    - destruct Hexit as (_ & _ & _ & _ & Hok). exfalso.
      destruct (Hok _ _ Hin') as [? ?]. destruct Hbad; congruence. }
  rewrite Hcs.
  split; [apply kindCheckedFirst_served; exact Hord|].
  split.
  { intros v' Hin'. apply elem_of_served_calls in Hin'; [|reflexivity].
    apply Hq in Hin'; [|reflexivity].
    apply (queryCall_IsValid _ _ _ _ _ Hk) in Hin'. rewrite Heff in Hin'.
    exact Hin'. }
  split.
  { intros Hx. rewrite Hx in Hexit.
    destruct Hexit as (_ & _ & message & k' & qp' & Hin' & Hw & Hrej).
    destruct Hrej as [(Hk' & _) | [(Hk' & _ & Hkind & _) | (Hk' & _)]];
      try discriminate Hk'.
    injection Hk' as <-. apply Huniq in Hin' as ->.
    rewrite Hw, errorResponse_status by reflexivity. done. }
  split.
  { intros Hx. rewrite Hx in Hexit.
    destruct Hexit as (_ & _ & message & k' & qp' & Hin' & Hw & Hrej).
    destruct Hrej
      as [(Hk' & _) | [(Hk' & _) | (Hk' & Hkind & fv & Hfv & Hvalid & ->)]];
      try discriminate Hk'.
    injection Hk' as <-. apply Huniq in Hin' as ->.
    rewrite Heff in Hkind, Hvalid.
    split; [exact Hkind|]. exists fv.
    rewrite Hw, errorResponse_status, errorResponse_body by done.
    done. }
  split.
  { intros Hbad.
    destruct Hrefused as (Hx1 & Hx2 & Hx3).
    { exists k, qp. rewrite Heff. auto. }
    split; [exact Hx1|].
    destruct (Hnoexec Hx1 Hx2 Hx3) as [Hall Hobj]. split; [|exact Hobj].
    apply Forall_app. split; [apply resolveCalls_not_execute|].
    constructor; [reflexivity | exact Hall]. }
  split.
  { intros Hx.
    destruct Hexecuted as (Hok & cs' & -> & _); [auto|].
    destruct (Hok _ _ Hin) as [Hkind Hfmt]. rewrite Heff in Hkind, Hfmt.
    split; [exact Hkind|]. split; [exact Hfmt|].
    eexists (resolveCalls request ++ CallReadAll :: cs'), _.
    split; [rewrite <- app_assoc; reflexivity|].
    simpl. rewrite <- Heff.
    apply delivered_lookup; [apply rangeOrder_NoDup | exact Hin]. }
  split.
  { intros Hbody Hbad.
    destruct (Hloop Hbody) as (message & k' & qp' & Hin' & Hw & Hrej).
    { exists k, qp. rewrite Heff. auto. }
    exists k', qp', message.
    split; [apply rangeOrder_elem_of; exact Hin'|]. split; [exact Hrej|].
    apply rejection_refused in Hrej as [_ Hne].
    rewrite Hw, errorResponse_status, errorResponse_body by done. done. }
  split.
  { intros Hbody Hothers.
    assert (Hk_round : forall message k' qp',
              (k', qp') ∈ entries ->
              rejection rid q k' qp' (exitOf fl) message ->
              k' = k /\ qp' = qp).
    { intros message k' qp' Hin' Hrej.
      destruct (decide (k' = k)) as [->|Hne]; [split; auto|].
      exfalso. apply rangeOrder_elem_of in Hin'.
      destruct (Hothers _ _ Hne Hin') as [Ha Hf]. fold q in Ha, Hf.
      apply rejection_refused in Hrej as [[?|?] _]; congruence. }
    split.
    - intros Hkind.
      destruct (Hloop Hbody) as (message & k' & qp' & Hin' & Hw & Hrej).
      { exists k, qp. rewrite Heff. auto. }
      destruct (Hk_round _ _ _ Hin' Hrej) as [-> ->].
      destruct Hrej
        as [(_ & Hget' & _) | [(Hx & _ & _ & ->) | (_ & Hkind' & _)]].
      + contradiction.
      + rewrite Hw, errorResponse_status, errorResponse_body by done. done.
      + rewrite Heff in Hkind'. congruence.
    - intros validator Hkind Hfv Hvalid.
      destruct (Hloop Hbody) as (message & k' & qp' & Hin' & Hw & Hrej).
      { exists k, qp. rewrite Heff. split; [exact Hin|]. right.
        unfold formatAccepts. rewrite Hfv. exact Hvalid. }
      destruct (Hk_round _ _ _ Hin' Hrej) as [-> ->].
      destruct Hrej
        as [(_ & Hget' & _)
           |[(_ & _ & Hkind' & _) | (Hx & _ & fv & Hfv' & _ & ->)]].
      + contradiction.
      + unfold v in Hkind. congruence.
      + rewrite Hfv in Hfv'. injection Hfv' as <-.
        rewrite Hw, errorResponse_status, errorResponse_body by done. done. }
  split.
  { intros l context Hin'.
    apply elem_of_app in Hin' as [Hin'|Hin'].
    { exfalso. pose proof (resolveCalls_not_execute request) as Hall.
      eapply Forall_forall in Hall; [|exact Hin']. discriminate. }
    apply elem_of_cons in Hin' as [Hin'|Hin']; [discriminate|].
    assert (Hx : exitOf fl = ExitServed \/ exitOf fl = ExitNilContentTypeOut
                 \/ exitOf fl = ExitWriteHeaderPanic).
    { destruct (exitOf fl) eqn:Hx; auto; exfalso;
        (destruct Hnoexec as [Hall _];
           [discriminate | discriminate | discriminate |]);
        (eapply Forall_forall in Hall; [|exact Hin']); discriminate. }
    destruct (Hexecuted Hx) as (Hok & cs' & -> & Hall).
    apply elem_of_app in Hin' as [Hin'|Hin'].
    { exfalso. eapply Forall_forall in Hall; [|exact Hin']. discriminate. }
    apply list_elem_of_singleton in Hin'. injection Hin' as -> ->.
    destruct (Hok _ _ Hin) as [Hkind Hfmt]. rewrite Heff in Hkind, Hfmt.
    split; [reflexivity|]. split; [|auto].
    simpl. rewrite <- Heff.
    apply delivered_lookup; [apply rangeOrder_NoDup | exact Hin]. }
  intros [Hberr Hbody] Hacc Hobj.
  assert (Hpass : forall x message k' qp',
            (k', qp') ∈ entries -> rejection rid q k' qp' x message -> False).
  { intros x message k' qp' Hin' Hrej.
    apply rangeOrder_elem_of in Hin'. destruct (Hacc _ _ Hin') as [Ha Hf].
    fold q in Ha, Hf.
    apply rejection_refused in Hrej as [[?|?] _]; congruence. }
  assert (Hx : exitOf fl = ExitServed \/ exitOf fl = ExitNilContentTypeOut
               \/ exitOf fl = ExitWriteHeaderPanic).
  { destruct (exitOf fl) eqn:Hx; auto; exfalso; try contradiction.
    - destruct Hexit as (_ & _ & Herr & _). contradiction.
    - destruct Hexit as (_ & _ & _ & HcIn & Hb & _). auto.
    - destruct Hexit as (_ & _ & message & k' & qp' & Hin' & _ & Hrej).
      apply (Hpass _ _ _ _ Hin' Hrej).
    - destruct Hexit as (_ & _ & message & k' & qp' & Hin' & _ & Hrej).
      apply (Hpass _ _ _ _ Hin' Hrej).
    - destruct Hexit as (_ & _ & message & k' & qp' & Hin' & _ & Hrej).
      apply (Hpass _ _ _ _ Hin' Hrej).
    - destruct Hexit as (_ & _ & _ & Hnone & _). simpl in Hnone.
      rewrite Hnone in Hobj. destruct Hobj; discriminate. }
  destruct (Hexecuted Hx) as (_ & cs' & -> & _).
  eexists (resolveCalls request ++ CallReadAll :: cs'), _.
  split; [rewrite <- app_assoc; reflexivity|].
  intros k' qp' Hk'. simpl.
  apply delivered_lookup; [apply rangeOrder_NoDup|].
  apply rangeOrder_elem_of. exact Hk'.
Qed.

(** A declared parameter for which [Get] returns the empty string: the
    loop works with the default value.  Every kind check for the key is a
    check of the default; a default of the wrong kind ends the call at
    line 280 with status 400 (the constant passed at line 279) and the
    handler is not executed; a handler that is executed finds the default
    under the key. *)
Lemma absent_query_parameter_defaulted s request now w objs r st1 h k qp :
  resolve s request now (start w objs) = (Next r, st1) ->
  matchingResource r = Some h ->
  rhQueryParameters h !! k = Some qp ->
  Get (URL_Query request) k = ""%string ->
  let out := ServeHTTP s request now (start w objs) in
  (forall v', CallIsValidType k v' ∈ calls out.2 -> v' = DefaultValue qp)
  /\ (out.1 = ExitDefaultValueKind k ->
      IsValidType qp (DefaultValue qp) = false
      /\ wStatus (writer out.2) = wStatus w ++ [StatusBadRequest])
  /\ (IsValidType qp (DefaultValue qp) = false ->
      out.1 <> ExitServed
      /\ Forall (fun c => isExecute c = false) (calls out.2)
      /\ objects out.2 = objs)
  /\ (out.1 = ExitServed ->
      IsValidType qp (DefaultValue qp) = true
      /\ exists cs context,
           calls out.2 = cs ++ [CallExecute (Implementation h) context]
           /\ QueryParameters context !! k = Some (DefaultValue qp)).
Proof.
  intros Hres Hh Hk Hget out.
  destruct (ServeHTTP_served_inv _ _ _ _ _ _ _ _ Hres Hh)
    as (fl & st' & Hserve & Hout & Hrid).
  fold out in Hout. rewrite Hout. clear out Hout. simpl.
  pose proof (serve_inv _ _ _ _ _ _ _ Hh Hserve) as (cs & Hcs & Hord & Hexit).
  pose proof (serve_calls _ _ _ _ _ _ _ Hh Hserve)
    as (cs2 & Hcs2 & _ & Hq & Hnoexec).
  rewrite Hcs in Hcs2. apply app_inv_head in Hcs2. injection Hcs2 as <-.
  change (calls st' = resolveCalls request ++ CallReadAll :: cs) in Hcs.
  simpl in Hexit, Hnoexec. rewrite Hrid in Hexit.
  set (q := URL_Query request) in *.
  set (entries := rangeOrder (rhQueryParameters h)) in *.
  assert (Heff : effective q k qp = DefaultValue qp).
  { unfold effective. rewrite bool_decide_eq_true_2 by exact Hget. done. }
  assert (Huniq : forall qp', (k, qp') ∈ entries -> qp' = qp).
  { intros qp' Hin'. apply rangeOrder_elem_of in Hin'. congruence. }
  assert (Hin : (k, qp) ∈ entries) by (apply rangeOrder_elem_of; exact Hk).
  rewrite Hcs.
  split.
  { intros v' Hv. apply elem_of_served_calls in Hv; [|reflexivity].
    apply Hq in Hv; [|reflexivity].
    apply (queryCall_IsValidType _ _ _ _ _ Hk) in Hv. congruence. }
  split.
  { intros Hx. rewrite Hx in Hexit.
    destruct Hexit as (_ & _ & message & k' & qp' & Hin' & Hw & Hrej).
    destruct Hrej as [(Hk' & _ & Hkind & _) | [(Hk' & _) | (Hk' & _)]];
      try discriminate Hk'.
    injection Hk' as <-. apply Huniq in Hin' as ->.
    rewrite Hw, errorResponse_status by reflexivity. done. }
  split.
  { intros Hbad.
    assert (Hx : exitOf fl <> ExitServed /\ exitOf fl <> ExitNilContentTypeOut
                 /\ exitOf fl <> ExitWriteHeaderPanic).
    { repeat split; intros Hx; rewrite Hx in Hexit;
        destruct Hexit as (? & ? & ? & ? & ? & _ & _ & Hok & _);
        destruct (Hok _ _ Hin) as [Hkind _]; congruence. }
    destruct Hx as (Hx1 & Hx2 & Hx3). split; [exact Hx1|].
    destruct (Hnoexec Hx1 Hx2 Hx3) as [Hall Hobj]. split; [|exact Hobj].
    apply Forall_app. split; [apply resolveCalls_not_execute|].
    constructor; [reflexivity | exact Hall]. }
  intros Hx. rewrite Hx in Hexit.
  destruct Hexit as (cs' & o & result & o' & c' & -> & _ & Hok & _).
  destruct (Hok _ _ Hin) as [Hkind Hfmt]. rewrite Heff in Hkind.
  split; [exact Hkind|].
  eexists (resolveCalls request ++ CallReadAll :: cs'), _.
  split; [rewrite <- app_assoc; reflexivity|].
  simpl. rewrite <- Heff.
  apply delivered_lookup; [apply rangeOrder_NoDup | exact Hin].
Qed.

(** *** The query string is read with [Get] only *)

Lemma Get_empty_value (q : MultiMap) k vs key :
  Get (<[k := ""%string :: vs]> q) key = Get (delete k q) key.
Proof.
  unfold Get. destruct (decide (k = key)) as [->|Hne].
  - rewrite lookup_insert_eq, lookup_delete_eq. reflexivity.
  - rewrite lookup_insert_ne, lookup_delete_ne by exact Hne. reflexivity.
Qed.

Lemma checkQueryParameters_Get_ext rid q1 q2 entries acc st :
  (forall key, Get q1 key = Get q2 key) ->
  checkQueryParameters rid q1 entries acc st
  = checkQueryParameters rid q2 entries acc st.
Proof.
  intros Hext. revert acc st.
  induction entries as [|[k qp] entries IH]; intros acc st; [reflexivity|].
  simpl. unfold mbind, Serve_bind, serve_bind.
  replace (checkQueryParameter rid q1 k qp acc st)
    with (checkQueryParameter rid q2 k qp acc st)
    by (unfold checkQueryParameter; rewrite Hext; reflexivity).
  destruct (checkQueryParameter rid q2 k qp acc st) as [[m|x] st1];
    [apply IH | reflexivity].
Qed.

Lemma ServeHTTP_Get_ext s request now st q1 q2 :
  (forall key, Get q1 key = Get q2 key) ->
  ServeHTTP s (withQuery request q1) now st
  = ServeHTTP s (withQuery request q2) now st.
Proof.
  intros Hext.
  unfold ServeHTTP, ServeHTTP_body, mbind, Serve_bind, serve_bind.
  change (resolve s (withQuery request q1) now st)
    with (resolve s (withQuery request q2) now st).
  destruct (resolve s (withQuery request q2) now st) as [[r|x] st1];
    [|reflexivity].
  unfold serve. unfold_serve. simpl.
  destruct (reqBody request) as [b err]. simpl.
  destruct (negb (isNil err)); simpl; [reflexivity|].
  destruct (isNil (contentTypeIn r) && (0 <? Len b)); simpl; [reflexivity|].
  destruct (matchingResource r) as [h|]; simpl; [|reflexivity].
  rewrite (checkQueryParameters_Get_ext _ q1 q2) by exact Hext.
  reflexivity.
Qed.

(** C9: a request that gives a parameter the empty string as its (first)
    value is served exactly as the request without that parameter; for a
    declared parameter the value the loop then checks against the kind is
    the configured default, and the default is what a handler that is
    executed finds under the key. *)
Theorem empty_value_as_absent s request now w objs k vs :
  let q := URL_Query request in
  let present := withQuery request (<[k := ""%string :: vs]> q) in
  let absent := withQuery request (delete k q) in
  let out := ServeHTTP s present now (start w objs) in
  out = ServeHTTP s absent now (start w objs)
  /\ forall r st1 h qp,
       resolve s present now (start w objs) = (Next r, st1) ->
       matchingResource r = Some h ->
       rhQueryParameters h !! k = Some qp ->
       (forall v', CallIsValidType k v' ∈ calls out.2 -> v' = DefaultValue qp)
       /\ (out.1 = ExitServed ->
           IsValidType qp (DefaultValue qp) = true
           /\ exists cs context,
                calls out.2 = cs ++ [CallExecute (Implementation h) context]
                /\ QueryParameters context !! k = Some (DefaultValue qp)).
Proof.
  intros q present absent out. split.
  - apply ServeHTTP_Get_ext. apply Get_empty_value.
  - intros r st1 h qp Hres Hh Hk.
    assert (Hget : Get (URL_Query present) k = ""%string).
    { unfold present, withQuery, Get. simpl. rewrite lookup_insert_eq. done. }
    destruct (absent_query_parameter_defaulted _ _ _ _ _ _ _ _ _ _
                Hres Hh Hk Hget) as (Hchecks & _ & _ & Hserved).
    split; assumption.
Qed.

(** C3, as the code has it: a call of the dispatcher that is not for the
    documentation and does not panic writes exactly one status.  It is the
    handler's status after an execution, 500 where the route has no
    endpoint, the endpoint no handler or the body cannot be read, and 400
    at every other [return]; among those is the [return] for a default
    value of the wrong kind (line 280).  The [return] for a missing
    handler instance is never taken.  A call that panics writes no
    status: where [WriteHeader] refuses the status of the handler's
    result (line 341), the headers are set and nothing else is written. *)
Theorem ServeHTTP_response s request now w objs :
  let out := ServeHTTP s request now (start w objs) in
  match out.1 with
  | ExitDocumentation => writer out.2 = serveDocumentation w
  | ExitServed =>
      exists result contentType,
        writer out.2
        = renderResourceResult w result contentType (requestIdOf s now)
        /\ wStatus (writer out.2) = wStatus w ++ [HttpStatus result]
  | ExitNoEndpoint | ExitNoResource | ExitBodyUnreadable =>
      wStatus (writer out.2) = wStatus w ++ [StatusInternalServerError]
  | ExitRouteError | ExitRouteNotFound | ExitInvalidContentType
  | ExitInvalidAccept | ExitNoAcceptElement | ExitNoMatchingResource
  | ExitBodyNotAllowed | ExitDefaultValueKind _ | ExitValueKind _
  | ExitValueFormat _ =>
      wStatus (writer out.2) = wStatus w ++ [StatusBadRequest]
  | ExitNilImplementation | ExitNilContentTypeOut => writer out.2 = w
  | ExitWriteHeaderPanic =>
      exists result contentType,
        checkWriteHeaderCode (HttpStatus result) = false
        /\ writer out.2
           = renderResourceResult w result contentType (requestIdOf s now)
        /\ wStatus (writer out.2) = wStatus w
        /\ wBody (writer out.2) = wBody w
  | ExitNoInstance | ExitNilEndpoint => False
  end.
Proof.
  intros out. subst out.
  destruct (resolve s request now (start w objs)) as [[r|x] st1] eqn:Hres.
  - pose proof (resolve_inv _ _ _ _ _ _ Hres) as (_ & _ & _ & _ & [h Hh] & _).
    destruct (ServeHTTP_served_inv _ _ _ _ _ _ _ _ Hres Hh)
      as (fl & st' & Hserve & -> & Hrid).
    apply (serve_inv _ _ _ _ _ _ _ Hh) in Hserve as (cs & _ & _ & Hexit).
    simpl in *. rewrite Hrid in Hexit.
    destruct (exitOf fl); try contradiction.
    + destruct Hexit as (_ & _ & _ & message & ->).
      apply errorResponse_status; reflexivity.
    + destruct Hexit as (_ & _ & _ & _ & _ & message & ->).
      apply errorResponse_status; reflexivity.
    + destruct Hexit as (_ & _ & message & k & qp & _ & -> & _).
      apply errorResponse_status; reflexivity.
    + destruct Hexit as (_ & _ & message & k & qp & _ & -> & _).
      apply errorResponse_status; reflexivity.
    + destruct Hexit as (_ & _ & message & k & qp & _ & -> & _).
      apply errorResponse_status; reflexivity.
    + destruct Hexit
        as (cs' & o & result & o' & c' & _ & _ & _ & _ & _ & _
              & ct & _ & -> & Hcode).
      exists result, ct. split; [reflexivity|].
      apply renderResourceResult_status. exact Hcode.
    + destruct Hexit as (_ & _ & Hw & _). exact Hw.
    + destruct Hexit
        as (cs' & o & result & o' & c' & _ & _ & _ & _ & _ & _ & _ & Hw).
      exact Hw.
    + destruct Hexit
        as (cs' & o & result & o' & c' & _ & _ & _ & _ & _ & _
              & ct & _ & -> & Hcode).
      exists result, ct. split; [exact Hcode|]. split; [reflexivity|].
      apply renderResourceResult_panic. exact Hcode.
  - rewrite (ServeHTTP_left _ _ _ _ _ _ Hres). simpl.
    apply resolve_inv in Hres as (_ & _ & Hx). simpl in Hx.
    destruct x; try contradiction; try exact Hx.
    all: destruct Hx as [message ->]; apply renderResourceResult_status.
    all: reflexivity.
Qed.

(** What an execution leaves behind: the call goes to the object the
    matched handler was registered with, and the state the call leaves
    that object in is the one the next request finds. *)
Lemma served_executes_registered_object s request now w objs r st1 h :
  resolve s request now (start w objs) = (Next r, st1) ->
  matchingResource r = Some h ->
  let out := ServeHTTP s request now (start w objs) in
  out.1 = ExitServed ->
  exists cs context o result o' context',
    calls out.2 = cs ++ [CallExecute (Implementation h) context]
    /\ objs !! Implementation h = Some o
    /\ Execute o context = (result, o', context')
    /\ objects out.2 = <[Implementation h := o']> objs.
Proof.
  intros Hres Hh out.
  destruct (ServeHTTP_served_inv _ _ _ _ _ _ _ _ Hres Hh)
    as (fl & st' & Hserve & Hout & Hrid).
  fold out in Hout. rewrite Hout. clear out Hout. simpl.
  apply (serve_inv _ _ _ _ _ _ _ Hh) in Hserve as (cs & Hcs & _ & Hexit).
  change (calls st' = resolveCalls request ++ CallReadAll :: cs) in Hcs.
  simpl in Hexit. intros Hx. rewrite Hx in Hexit.
  destruct Hexit as (cs' & o & result & o' & c' & -> & _ & _ & Ho & Hex & Hobj & _).
  eexists (resolveCalls request ++ CallReadAll :: cs'), _, o, result, o', c'.
  rewrite Hcs, <- app_assoc. eauto.
Qed.

(** The branch of C8 is there in [serve]: handed a nil resource, the
    second half leaves through it. *)
Lemma serve_nil_resource s request r st :
  matchingResource r = None ->
  reqBody request = (""%string, None) ->
  (serve s request r st).1 = Leave ExitNoInstance.
Proof.
  intros Hr Hbody. unfold serve. unfold_serve. simpl.
  rewrite Hbody, Hr. simpl. rewrite andb_false_r. reflexivity.
Qed.

End Properties.

(** * The dispatcher on the sample server *)

Section Runs.
Import Sample.
#[local] Existing Instance package.

(** C1, as the code has it: [GET /items] without [limit], on a handler
    whose default for [limit] is not of the declared kind, is answered
    with status 400, the constant the source passes at line 279, not with
    a status of the 500 class; the handler is not executed. *)
Theorem misconfigured_default_gets_400 :
  let out := run itemsRequest objects0 in
  out.1 = ExitDefaultValueKind "limit"
  /\ wStatus (writer out.2) = [StatusBadRequest]
  /\ wStatus (writer out.2) <> [StatusInternalServerError]
  /\ wBody (writer out.2)
     = "[o] Query parameter limit default value must be of kind int"%string
  /\ Forall (fun c => isExecute c = false) (calls out.2)
  /\ objects out.2 = objects0.
Proof.
  vm_compute. repeat split; try discriminate. repeat constructor.
Qed.

(** C2, as the code has it: the dispatcher executes the object that the
    matched handler was registered with, not a new instance.  Two equal
    requests to [GET /hits], one after the other, reach the same object;
    the first leaves its count changed, and the second is answered from
    what the first has left. *)
Theorem handler_object_shared_across_requests :
  let first := run hitsRequest objects0 in
  let second := run hitsRequest (objects first.2) in
  first.1 = ExitServed /\ second.1 = ExitServed
  /\ (exists context,
        last (calls first.2)
        = Some (CallExecute (Implementation hitsHandler) context)
        /\ last (calls second.2)
           = Some (CallExecute (Implementation hitsHandler) context))
  /\ objects0 !! Implementation hitsHandler = Some 0
  /\ objects first.2 !! Implementation hitsHandler = Some 1
  /\ wBody (writer first.2) = "0"%string
  /\ wBody (writer second.2) = "1"%string.
Proof.
  vm_compute. repeat split. eexists. split; reflexivity.
Qed.

(** The statements above at runs of the sample server. *)

Lemma renderResourceResult_headers_witness :
  wHeader newResponseWriter !! "Content-Type"%string = None
  /\ wHeader
       (renderResourceResult newResponseWriter
          {| HttpStatus := 200; Body := Some "hello"%string |}
          "text/plain" "o") !! "Content-Length"%string
     = Some [Itoa 5]
  /\ wHeader
       (renderResourceResult newResponseWriter
          {| HttpStatus := 204; Body := None |} "text/plain" "o")
       !! "Content-Length"%string
     = Some [Itoa 0].
Proof.
  assert (Hfresh : wHeader newResponseWriter !! "Content-Type"%string = None)
    by reflexivity.
  split; [exact Hfresh|]. split.
  - exact (proj1 (renderResourceResult_headers newResponseWriter
                    {| HttpStatus := 200; Body := Some "hello"%string |}
                    "text/plain" "o" Hfresh)).
  - exact (proj1 (renderResourceResult_headers newResponseWriter
                    {| HttpStatus := 204; Body := None |}
                    "text/plain" "o" Hfresh)).
Defined.

Lemma unmatched_route_rejected_witness :
  forDocumentation server (request "/nowhere" ∅ json "") = false
  /\ FindNodeByRoute (router_ server) "/nowhere" = (None, ∅, None)
  /\ (run (request "/nowhere" ∅ json "") objects0).1 = ExitRouteNotFound
  /\ wStatus (writer (run (request "/nowhere" ∅ json "") objects0).2)
     = [StatusBadRequest].
Proof.
  assert (Hdoc : forDocumentation server (request "/nowhere" ∅ json "") = false)
    by reflexivity.
  assert (Hfind : FindNodeByRoute (router_ server)
                    (URL_Path (request "/nowhere" ∅ json ""))
                  = (None, ∅, None)) by (vm_compute; reflexivity).
  split; [exact Hdoc|]. split; [exact Hfind|].
  destruct (unmatched_route_rejected server (request "/nowhere" ∅ json "") tt
              newResponseWriter objects0 ∅ None Hdoc Hfind)
    as (Hexit & Hstatus & _).
  split; [|exact Hstatus].
  destruct Hexit as [Hexit|Hexit]; [exact Hexit|].
  vm_compute in Hexit. discriminate Hexit.
Defined.

Lemma no_accept_element_rejected_witness :
  HasAcceptElement
    (newAcceptHeaderParser
       (Get (reqHeader (request "/hits" ∅ "" "")) "Accept")).1 = false
  /\ Forall (fun c => isFindMatchingResource c = false)
       (calls (run (request "/hits" ∅ "" "") objects0).2)
  /\ wStatus (writer (run (request "/hits" ∅ "" "") objects0).2)
     = [StatusBadRequest].
Proof.
  assert (Hhas : HasAcceptElement
                   (newAcceptHeaderParser
                      (Get (reqHeader (request "/hits" ∅ "" "")) "Accept")).1
                 = false) by (vm_compute; reflexivity).
  split; [exact Hhas|].
  destruct (no_accept_element_rejected server (request "/hits" ∅ "" "") tt
              newResponseWriter objects0 Hhas) as (Hmatch & _ & Hreached).
  split; [exact Hmatch|].
  apply Hreached. vm_compute. do 3 right. left.
Defined.

Lemma body_not_allowed_witness :
  resolve server (request "/hits" ∅ json "x") tt
    (start newResponseWriter objects0)
  = (Next (resolved hitsHandler),
     resolvedState (request "/hits" ∅ json "x") objects0)
  /\ contentTypeIn (resolved hitsHandler) = None
  /\ reqBody (request "/hits" ∅ json "x") = ("x"%string, None)
  /\ "x"%string <> ""%string
  /\ (run (request "/hits" ∅ json "x") objects0).1 = ExitBodyNotAllowed
  /\ wStatus (writer (run (request "/hits" ∅ json "x") objects0).2)
     = [StatusBadRequest].
Proof.
  assert (Hres : resolve server (request "/hits" ∅ json "x") tt
                   (start newResponseWriter objects0)
                 = (Next (resolved hitsHandler),
                    resolvedState (request "/hits" ∅ json "x") objects0))
    by reflexivity.
  assert (Hb : "x"%string <> ""%string) by discriminate.
  split; [exact Hres|]. split; [reflexivity|]. split; [reflexivity|].
  split; [exact Hb|].
  destruct (body_not_allowed server (request "/hits" ∅ json "x") tt
              newResponseWriter objects0 _ _ "x" Hres eq_refl eq_refl Hb)
    as (Hexit & Hstatus & _).
  split; [exact Hexit | exact Hstatus].
Defined.

Lemma present_query_parameter_checked_witness :
  resolve server (usersRequest ["7"%string]) tt
    (start newResponseWriter objects0)
  = (Next (resolved usersHandler),
     resolvedState (usersRequest ["7"%string]) objects0)
  /\ matchingResource (resolved usersHandler) = Some usersHandler
  /\ rhQueryParameters usersHandler !! "page"%string = Some page
  /\ Get (URL_Query (usersRequest ["7"%string])) "page" <> ""%string
  /\ (run (usersRequest ["7"%string]) objects0).1 = ExitServed
  /\ kindCheckedFirst (calls (run (usersRequest ["7"%string]) objects0).2)
  /\ (exists cs context,
        calls (run (usersRequest ["7"%string]) objects0).2
        = cs ++ [CallExecute (Implementation usersHandler) context]
        /\ QueryParameters context !! "page"%string = Some "7"%string)
  /\ (run (usersRequest ["1234"%string]) objects0).1 = ExitValueFormat "page"
  /\ wStatus (writer (run (usersRequest ["1234"%string]) objects0).2)
     = [StatusBadRequest]
  /\ wBody (writer (run (usersRequest ["1234"%string]) objects0).2)
     = "[o] Invalid Query Parameter, page has at most three digits"%string
  /\ (run (usersRequest ["x"%string]) objects0).1 = ExitValueKind "page"
  /\ wStatus (writer (run (usersRequest ["x"%string]) objects0).2)
     = [StatusBadRequest]
  /\ wBody (writer (run (usersRequest ["x"%string]) objects0).2)
     = "[o] Query parameter page must be of kind int"%string.
Proof.
  assert (Hres : forall pages,
            resolve server (usersRequest pages) tt
              (start newResponseWriter objects0)
            = (Next (resolved usersHandler),
               resolvedState (usersRequest pages) objects0))
    by reflexivity.
  assert (Hk : rhQueryParameters usersHandler !! "page"%string = Some page)
    by (vm_compute; reflexivity).
  assert (Hget : forall value : string,
            value <> ""%string ->
            Get (URL_Query (usersRequest [value])) "page" <> ""%string).
  { intros value Hvalue. unfold Get, usersRequest, request. simpl.
    rewrite lookup_singleton_eq. exact Hvalue. }
  assert (Hbody : forall pages,
            bodyAccepted (usersRequest pages) (resolved usersHandler)).
  { intros pages. split; [reflexivity | intros _; reflexivity]. }
  assert (Hothers : forall pages k' qp',
            k' <> "page"%string ->
            rhQueryParameters usersHandler !! k' = Some qp' ->
            IsValidType qp' (effective (URL_Query (usersRequest pages)) k' qp')
            = true
            /\ formatAccepts qp'
                 (effective (URL_Query (usersRequest pages)) k' qp') = true).
  { intros pages k' qp' Hne Hk'. unfold usersHandler in Hk'. simpl in Hk'.
    apply lookup_singleton_Some in Hk' as [<- _]. contradiction. }
  assert (Hserved : (run (usersRequest ["7"%string]) objects0).1 = ExitServed)
    by (vm_compute; reflexivity).
  split; [apply Hres|]. split; [reflexivity|]. split; [exact Hk|].
  split; [apply Hget; discriminate|]. split; [exact Hserved|].
  destruct (present_query_parameter_checked server (usersRequest ["7"%string])
              tt newResponseWriter objects0 _ _ usersHandler "page" page
              (Hres _) eq_refl Hk (Hget "7"%string ltac:(discriminate)))
    as (Hord & _ & _ & _ & _ & Hdelivered & _).
  split; [exact Hord|].
  destruct (Hdelivered Hserved) as (_ & _ & Hcontext).
  split; [exact Hcontext|].
  destruct (present_query_parameter_checked server
              (usersRequest ["1234"%string])
              tt newResponseWriter objects0 _ _ usersHandler "page" page
              (Hres _) eq_refl Hk (Hget "1234"%string ltac:(discriminate)))
    as (_ & _ & _ & _ & _ & _ & _ & Hanswered & _).
  destruct (Hanswered (Hbody _) (Hothers _)) as [_ Hformat].
  destruct (Hformat threeDigits eq_refl eq_refl eq_refl)
    as (Hexit & Hstatus & Hmessage).
  split; [exact Hexit|]. split; [exact Hstatus|]. split; [exact Hmessage|].
  destruct (present_query_parameter_checked server
              (usersRequest ["x"%string])
              tt newResponseWriter objects0 _ _ usersHandler "page" page
              (Hres _) eq_refl Hk (Hget "x"%string ltac:(discriminate)))
    as (_ & _ & _ & _ & _ & _ & _ & Hanswered' & _).
  destruct (Hanswered' (Hbody _) (Hothers _)) as [Hkind _].
  destruct (Hkind eq_refl) as (Hexit' & Hstatus' & Hmessage').
  split; [exact Hexit'|]. split; [exact Hstatus' | exact Hmessage'].
Defined.

Lemma empty_value_as_absent_witness :
  run (usersRequest [""%string]) objects0 = run (request "/users" ∅ json "") objects0
  /\ resolve server (usersRequest [""%string]) tt
       (start newResponseWriter objects0)
     = (Next (resolved usersHandler),
        resolvedState (usersRequest [""%string]) objects0)
  /\ (run (usersRequest [""%string]) objects0).1 = ExitServed
  /\ exists cs context,
       calls (run (usersRequest [""%string]) objects0).2
       = cs ++ [CallExecute (Implementation usersHandler) context]
       /\ QueryParameters context !! "page"%string = Some (DefaultValue page).
Proof.
  assert (Hres : resolve server (usersRequest [""%string]) tt
                   (start newResponseWriter objects0)
                 = (Next (resolved usersHandler),
                    resolvedState (usersRequest [""%string]) objects0))
    by reflexivity.
  assert (Hk : rhQueryParameters usersHandler !! "page"%string = Some page)
    by (vm_compute; reflexivity).
  assert (Hserved : (run (usersRequest [""%string]) objects0).1 = ExitServed)
    by (vm_compute; reflexivity).
  destruct (empty_value_as_absent server (request "/users" ∅ json "") tt
              newResponseWriter objects0 "page" []) as (Hsame & Hdefault).
  split; [exact Hsame|]. split; [exact Hres|]. split; [exact Hserved|].
  destruct (Hdefault _ _ usersHandler page Hres eq_refl Hk) as (_ & Hdelivered).
  destruct (Hdelivered Hserved) as (_ & Hcontext). exact Hcontext.
Defined.

End Runs.

(** * Further properties of the dispatcher *)

Section Pipeline.
Context `{Package}.

Ltac unfold_serve :=
  unfold findNodeByRoute, getEndpoint, parseContentType, parseAccept,
    hasAcceptElement, getResourceHandlers, findMatchingResource, readAll,
    isValidType, isValid, getErrorMessage, renderError, render, when, nonNil,
    leave, call, onWriter, mbind, mret, Serve_bind, Serve_ret, serve_bind,
    serve_ret in *.

(** *** Why the first half ends where it ends *)

Lemma resolve_cause s request now st fl st' :
  resolve s request now st = (fl, st') ->
  match fl with
  | Next r => matched s request now r
  | Leave x => resolveCause s request x
  end.
Proof.
  unfold resolve, matched, negotiable, routed, forDocumentation.
  fold (requestIdOf s now). generalize (requestIdOf s now). intros rid.
  unfold_serve. simpl. intros Hrun.
  destruct (documentationEndpointEnabled s && _) eqn:Hdoc; simpl in Hrun.
  { inversion Hrun; subst. exact Hdoc. }
  destruct (FindNodeByRoute _ _) as [[node0 rv] err] eqn:Hfind; simpl in Hrun.
  destruct err as [message|]; simpl in Hrun.
  { inversion Hrun; subst. simpl. unfold forDocumentation. eauto 10. }
  destruct node0 as [node0|]; simpl in Hrun.
  2:{ inversion Hrun; subst. simpl. unfold forDocumentation. eauto 10. }
  destruct (GetEndpoint node0) as [endp|] eqn:Hendp; simpl in Hrun.
  2:{ inversion Hrun; subst. simpl. unfold routed, forDocumentation.
      eauto 10. }
  destruct (newContentTypeHeaderParser _) as [ctp err] eqn:Hct; simpl in Hrun.
  destruct err as [message|]; simpl in Hrun.
  { inversion Hrun; subst. simpl. unfold routed, forDocumentation.
    eauto 12. }
  destruct (newAcceptHeaderParser _) as [acp err] eqn:Hac; simpl in Hrun.
  destruct err as [message|]; simpl in Hrun.
  { inversion Hrun; subst. simpl. unfold routed, forDocumentation.
    eauto 15. }
  destruct (HasAcceptElement acp) eqn:Hhas; simpl in Hrun.
  2:{ inversion Hrun; subst. simpl. unfold routed, forDocumentation.
      exists node0, rv, endp, ctp, acp. eauto 10. }
  case_bool_decide as Hlen; simpl in Hrun.
  { inversion Hrun; subst. simpl. unfold negotiable, routed, forDocumentation.
    exists node0, rv, endp, ctp, acp.
    apply length_zero_iff_nil in Hlen. eauto 10. }
  assert (Hne : GetResourceHandlers endp <> []).
  { intros Hnil. apply Hlen. rewrite Hnil. reflexivity. }
  destruct (FindMatchingResource _ _ _ _) as [[mr cIn] cOut] eqn:Hmatch;
    simpl in Hrun.
  destruct mr as [mr|]; simpl in Hrun.
  2:{ inversion Hrun; subst. simpl. unfold negotiable, routed, forDocumentation.
      exists node0, rv, endp, ctp, acp, cIn, cOut. eauto 10. }
  inversion Hrun; subst; simpl.
  exists node0, endp, ctp, acp. eauto 12.
Qed.

(** *** Why the second half ends where it ends *)

Lemma serve_cause s request r h st fl st' :
  matchingResource r = Some h ->
  serve s request r st = (fl, st') ->
  serveCause request (objects st) r h (exitOf fl).
Proof.
  intros Hh. unfold serve, serveCause, bodyAccepted, parametersAccepted.
  rewrite Hh. unfold_serve. simpl.
  destruct (reqBody request) as [b err] eqn:Hbody; simpl.
  destruct err as [e|]; simpl.
  { intros Hrun; inversion Hrun; subst; simpl. discriminate. }
  destruct (isNil (contentTypeIn r) && (0 <? Len b)) eqn:Hallowed; simpl.
  { intros Hrun; inversion Hrun; subst; simpl.
    apply andb_true_iff in Hallowed as [Hnil Hlen].
    rewrite Len_pos in Hlen. apply negb_true_iff, bool_decide_eq_false in Hlen.
    destruct (contentTypeIn r); [discriminate | done]. }
  assert (Hbodyok : contentTypeIn r = None -> b = ""%string).
  { intros HcIn. rewrite HcIn, Len_pos in Hallowed. simpl in Hallowed.
    apply negb_false_iff, bool_decide_eq_true in Hallowed. exact Hallowed. }
  destruct (checkQueryParameters _ _ _ _ _) as [[m|x] st1] eqn:Hloop.
  - apply checkQueryParameters_inv in Hloop
      as (Hobj & _ & -> & Hw & Hok).
    simpl in Hobj.
    assert (Hacc : forall k qp, rhQueryParameters h !! k = Some qp ->
              IsValidType qp (effective (URL_Query request) k qp) = true
              /\ formatAccepts qp (effective (URL_Query request) k qp) = true).
    { intros k qp Hk. apply Hok, rangeOrder_elem_of, Hk. }
    unfold execute. rewrite Hobj.
    destruct (objects st !! Implementation h) as [o|] eqn:Ho.
    2:{ intros Hrun; inversion Hrun; subst; simpl. done. }
    destruct (Execute o _) as [[result o'] context'] eqn:Hexec.
    destruct (ContentTypeOut context') as [contentType|] eqn:Hout;
      [destruct (checkWriteHeaderCode (HttpStatus result))|].
    all: simpl; intros Hrun; inversion Hrun; subst; simpl; eauto.
  - apply checkQueryParameters_inv in Hloop
      as (_ & _ & message & k & qp & Hin & _ & Hrej).
    apply rangeOrder_elem_of in Hin.
    intros Hrun; inversion Hrun; subst; simpl.
    destruct Hrej as [(-> & ? & ? & _) | [(-> & ? & ? & _)
                     | (-> & ? & fv & ? & ? & _)]]; simpl; eauto 10.
Qed.

(** The whole call ends where it ends for the cause of that exit. *)
Lemma ServeHTTP_cause s request now w objs :
  let out := ServeHTTP s request now (start w objs) in
  resolveCause s request out.1
  \/ exists r h,
       matched s request now r /\ matchingResource r = Some h
       /\ serveCause request objs r h out.1.
Proof.
  intros out. subst out.
  destruct (resolve s request now (start w objs)) as [[r|x] st1] eqn:Hres.
  - pose proof (resolve_cause _ _ _ _ _ _ Hres) as Hmatched. simpl in Hmatched.
    pose proof (resolve_inv _ _ _ _ _ _ Hres) as (_ & _ & _ & _ & [h Hh] & _).
    destruct (ServeHTTP_served_inv _ _ _ _ _ _ _ _ Hres Hh)
      as (fl & st' & Hserve & -> & _).
    right. exists r, h. split; [exact Hmatched|]. split; [exact Hh|].
    apply (serve_cause _ _ _ _ _ _ _ Hh Hserve).
  - rewrite (ServeHTTP_left _ _ _ _ _ _ Hres). left.
    apply (resolve_cause _ _ _ _ _ _ Hres).
Qed.

(** *** The checks decide the call *)

Lemma matched_unique s request now r r' :
  matched s request now r -> matched s request now r' -> r = r'.
Proof.
  intros (n & e & cp & ap & ((_ & Hfind) & He & Hct & Hac & _) & _ & Hm & _ & Hid)
         (n' & e' & cp' & ap' & ((_ & Hfind') & He' & Hct' & Hac' & _)
            & _ & Hm' & _ & Hid').
  rewrite Hfind in Hfind'. injection Hfind' as <- Hrv.
  rewrite He in He'. injection He' as <-.
  rewrite Hct in Hct'. injection Hct' as <-.
  rewrite Hac in Hac'. injection Hac' as <-.
  rewrite Hm in Hm'. injection Hm' as Hmr HcIn HcOut.
  destruct r, r'. simpl in *. congruence.
Qed.

Lemma matched_no_cause s request now r x :
  matched s request now r -> resolveCause s request x -> False.
Proof.
  intros Hm Hres.
  destruct Hm as (n & e & cp & ap & ((Hdoc & Hfind) & He & Hct & Hac & Hhas)
                    & Hne & Hmatch & [h Hh] & _).
  rewrite Hh in Hmatch.
  destruct x; simpl in Hres; try exact Hres;
    unfold negotiable, routed in Hres.
  - congruence.
  - destruct Hres as (_ & ? & ? & ? & ?). congruence.
  - destruct Hres as (_ & ? & ?). congruence.
  - destruct Hres as (? & ? & (_ & ?) & ?). congruence.
  - destruct Hres as (? & ? & ? & ? & ? & (_ & ?) & ? & ?). congruence.
  - destruct Hres as (? & ? & ? & ? & ? & ? & (_ & ?) & ? & ? & ?).
    congruence.
  - destruct Hres as (? & ? & ? & ? & ? & (_ & ?) & ? & ? & ? & ?).
    congruence.
  - destruct Hres as (? & ? & ? & ? & ? & ((_ & ?) & ? & ? & ? & ?) & ?).
    congruence.
  - destruct Hres
      as (? & ? & ? & ? & ? & ? & ? & ((_ & ?) & ? & ? & ? & ?) & ? & ?).
    congruence.
Qed.

Lemma matched_resolve s request now r st :
  matched s request now r ->
  exists st', resolve s request now st = (Next r, st').
Proof.
  intros Hm.
  destruct (resolve s request now st) as [[r'|x] st'] eqn:Hres.
  - apply resolve_cause in Hres.
    rewrite (matched_unique _ _ _ _ _ Hm Hres). eauto.
  - apply resolve_cause in Hres. exfalso.
    apply (matched_no_cause _ _ _ _ _ Hm Hres).
Qed.

Lemma admitted_exit s request now w objs :
  let out := ServeHTTP s request now (start w objs) in
  (out.1 = ExitServed \/ out.1 = ExitNilContentTypeOut
   \/ out.1 = ExitWriteHeaderPanic)
  <-> exists r h, admitted s request now objs r h.
Proof.
  intros out. split.
  - intros Hx. destruct (ServeHTTP_cause s request now w objs) as [Hc|Hc];
      fold out in Hc.
    + destruct Hx as [Hx|[Hx|Hx]]; rewrite Hx in Hc; destruct Hc.
    + destruct Hc as (r & h & Hm & Hh & Hc). exists r, h.
      unfold admitted.
      destruct Hx as [Hx|[Hx|Hx]]; rewrite Hx in Hc; simpl in Hc; tauto.
  - intros (r & h & Hm & Hh & [Hberr Hbody] & Hacc & Hobj).
    destruct (matched_resolve _ _ _ _ (start w objs) Hm) as [st1 Hres].
    destruct (ServeHTTP_served_inv _ _ _ _ _ _ _ _ Hres Hh)
      as (fl & st' & Hserve & Hout & _).
    fold out in Hout. rewrite Hout. simpl.
    pose proof (serve_cause _ _ _ _ _ _ _ Hh Hserve) as Hc. simpl in Hc.
    destruct (exitOf fl); simpl in Hc; try contradiction; auto; exfalso.
    + destruct Hc as (_ & HcIn & Hb). auto.
    + destruct Hc as (_ & qp & Hk & Hget & Hkind).
      destruct (Hacc _ _ Hk) as [Hok _]. unfold effective in Hok.
      rewrite bool_decide_eq_true_2 in Hok by exact Hget. congruence.
    + destruct Hc as (_ & qp & Hk & Hget & Hkind).
      destruct (Hacc _ _ Hk) as [Hok _]. unfold effective in Hok.
      rewrite bool_decide_eq_false_2 in Hok by exact Hget. congruence.
    + destruct Hc as (_ & qp & fv & Hk & _ & Hfv & Hvalid).
      destruct (Hacc _ _ Hk) as [_ Hok]. unfold formatAccepts in Hok.
      rewrite Hfv in Hok. congruence.
    + destruct Hc as (_ & _ & Hnone). rewrite Hnone in Hobj.
      destruct Hobj; discriminate.
Qed.

(** [Execute] appears among the calls exactly when the call ends after
    it, and then it is the last call, made on the object of the matched
    handler with the context put together by [serve]. *)
Lemma executed_context s request now w objs l context :
  let out := ServeHTTP s request now (start w objs) in
  CallExecute l context ∈ calls out.2 ->
  (out.1 = ExitServed \/ out.1 = ExitNilContentTypeOut
   \/ out.1 = ExitWriteHeaderPanic)
  /\ exists r h cs,
       matched s request now r /\ matchingResource r = Some h
       /\ l = Implementation h
       /\ context
          = contextOf s request r
              (delivered (URL_Query request)
                 (rangeOrder (rhQueryParameters h)) ∅)
       /\ calls out.2 = cs ++ [CallExecute l context]
       /\ Forall (fun c => isExecute c = false) cs.
Proof.
  intros out Hin. subst out.
  destruct (resolve s request now (start w objs)) as [[r|x] st1] eqn:Hres.
  - pose proof (resolve_cause _ _ _ _ _ _ Hres) as Hm. simpl in Hm.
    pose proof (resolve_inv _ _ _ _ _ _ Hres) as (_ & _ & _ & _ & [h Hh] & _).
    destruct (ServeHTTP_served_inv _ _ _ _ _ _ _ _ Hres Hh)
      as (fl & st' & Hserve & Hout & _).
    rewrite Hout in Hin |- *. simpl in Hin |- *.
    pose proof (serve_inv _ _ _ _ _ _ _ Hh Hserve) as (cs & Hcs & _ & Hexit).
    pose proof (serve_calls _ _ _ _ _ _ _ Hh Hserve)
      as (cs2 & Hcs2 & _ & _ & Hnoexec).
    rewrite Hcs in Hcs2. apply app_inv_head in Hcs2. injection Hcs2 as <-.
    change (calls st' = resolveCalls request ++ CallReadAll :: cs) in Hcs.
    simpl in Hexit, Hnoexec.
    assert (Hpre : Forall (fun c => isExecute c = false)
                     (resolveCalls request ++ [CallReadAll])).
    { apply Forall_app. split; [apply resolveCalls_not_execute|].
      repeat constructor. }
    assert (Hsplit : calls st' = (resolveCalls request ++ [CallReadAll]) ++ cs)
      by (rewrite Hcs, <- app_assoc; reflexivity).
    assert (Hserved : forall cs' c0,
              cs = cs' ++ [CallExecute (Implementation h) c0] ->
              Forall (queryCall (URL_Query request)
                        (rangeOrder (rhQueryParameters h))) cs' ->
              l = Implementation h /\ context = c0
              /\ Forall (fun c => isExecute c = false)
                   ((resolveCalls request ++ [CallReadAll]) ++ cs')).
    { intros cs' c0 -> Hq.
      assert (Hcs' : Forall (fun c => isExecute c = false) cs').
      { eapply Forall_impl; [exact Hq|]. apply queryCall_not_execute. }
      rewrite Hsplit in Hin.
      apply elem_of_app in Hin as [Hin|Hin].
      { eapply Forall_forall in Hpre; [|exact Hin]. discriminate. }
      apply elem_of_app in Hin as [Hin|Hin].
      { eapply Forall_forall in Hcs'; [|exact Hin]. discriminate. }
      apply list_elem_of_singleton in Hin. injection Hin as -> ->.
      split; [reflexivity|]. split; [reflexivity|].
      apply Forall_app. split; assumption. }
    assert (Hnot : exitOf fl <> ExitServed ->
                   exitOf fl <> ExitNilContentTypeOut ->
                   exitOf fl <> ExitWriteHeaderPanic -> False).
    { intros Hx1 Hx2 Hx3. destruct (Hnoexec Hx1 Hx2 Hx3) as [Hall _].
      rewrite Hsplit in Hin. apply elem_of_app in Hin as [Hin|Hin].
      - eapply Forall_forall in Hpre; [|exact Hin]. discriminate.
      - eapply Forall_forall in Hall; [|exact Hin]. discriminate. }
    clear Hnoexec.
    destruct (exitOf fl) eqn:Hx;
      try (exfalso; apply Hnot; discriminate).
    all: destruct Hexit as (cs' & o & result & o' & c' & Hcs' & Hq & _).
    all: destruct (Hserved _ _ Hcs' Hq) as (-> & -> & Hall).
    all: split; [auto|].
    all: exists r, h, ((resolveCalls request ++ [CallReadAll]) ++ cs').
    all: rewrite Hsplit, Hcs', app_assoc; auto 10.
  - rewrite (ServeHTTP_left _ _ _ _ _ _ Hres) in Hin. simpl in Hin.
    exfalso. apply resolve_inv in Hres as (_ & (cs & Hcs & Hall) & _).
    simpl in Hcs. rewrite Hcs in Hin.
    eapply Forall_forall in Hall; [|exact Hin]. discriminate.
Qed.

(** *** The documentation endpoint and the settings of the server *)

Lemma documentation_run s request now w objs :
  forDocumentation s request = true ->
  ServeHTTP s request now (start w objs)
  = (ExitDocumentation,
     {| writer := serveDocumentation w; objects := objs;
        calls := [CallServeDocumentation] |}).
Proof.
  unfold forDocumentation. intros Hdoc.
  unfold ServeHTTP, ServeHTTP_body, resolve, start. unfold_serve. simpl.
  rewrite Hdoc. reflexivity.
Qed.

(** Two servers that agree on the router, on the two debug settings the
    dispatcher reads and on whether the request is the one for the
    documentation serve the request alike. *)
Lemma ServeHTTP_server_ext s1 s2 request now st :
  router_ s1 = router_ s2 ->
  debugEnableLogRequestIdentifier s1 = debugEnableLogRequestIdentifier s2 ->
  debugEnableLogRequestDuration s1 = debugEnableLogRequestDuration s2 ->
  forDocumentation s1 request = forDocumentation s2 request ->
  ServeHTTP s1 request now st = ServeHTTP s2 request now st.
Proof.
  unfold forDocumentation. intros Hr Hid Hdur Hdoc.
  unfold ServeHTTP, ServeHTTP_body, resolve, serve.
  rewrite Hr, Hid, Hdur, Hdoc. reflexivity.
Qed.

(** X1: a request for the enabled documentation URL is answered by the
    documentation renderer alone: the router is not asked, whatever is
    registered under that path, no header is parsed, the body is not
    read and no handler object changes. *)
Theorem documentation_bypasses_router s request now w objs :
  documentationEndpointEnabled s = true ->
  documentationEndpointUrl s = URL_Path request ->
  let out := ServeHTTP s request now (start w objs) in
  out.1 = ExitDocumentation
  /\ writer out.2 = serveDocumentation w
  /\ calls out.2 = [CallServeDocumentation]
  /\ objects out.2 = objs.
Proof.
  intros Hen Hurl out. subst out.
  rewrite documentation_run; [auto|].
  unfold forDocumentation. rewrite Hen, bool_decide_eq_true_2 by exact Hurl.
  reflexivity.
Qed.

(** X2: after [EnableDocumentationEndpoint(url)] a request for [url] gets
    the documentation; a request for any other path never does, also not
    for a URL enabled before, and is served as it was before the call
    unless it was a documentation request then. *)
Theorem EnableDocumentationEndpoint_routes s url request now w objs :
  let s' := EnableDocumentationEndpoint s url in
  let out := ServeHTTP s' request now (start w objs) in
  (URL_Path request = url ->
   out.1 = ExitDocumentation /\ writer out.2 = serveDocumentation w)
  /\ (URL_Path request <> url ->
      out.1 <> ExitDocumentation
      /\ (forDocumentation s request = false ->
          out = ServeHTTP s request now (start w objs))).
Proof.
  intros s' out. split.
  - intros Hurl. subst out. rewrite documentation_run; [auto|].
    unfold forDocumentation, s'. simpl.
    rewrite bool_decide_eq_true_2 by (symmetry; exact Hurl). reflexivity.
  - intros Hurl.
    assert (Hdoc : forDocumentation s' request = false).
    { unfold forDocumentation, s'. simpl.
      apply bool_decide_eq_false_2. intros Heq. apply Hurl. symmetry.
      exact Heq. }
    split.
    + intros Hx.
      destruct (ServeHTTP_cause s' request now w objs) as [Hc|Hc];
        fold out in Hc; rewrite Hx in Hc.
      * simpl in Hc. congruence.
      * destruct Hc as (r & h & _ & _ & Hc). exact Hc.
    + intros Hold. subst out.
      apply ServeHTTP_server_ext; try reflexivity. congruence.
Qed.

(** X3: the arrival time enters a call only through the request id:
    calls at two times that give the same request id are served alike.
    It is read only when the logging of request durations is on: with
    that setting off, calls at different times are served alike, and with
    the logging of request identifiers on every request gets the
    identifier of the zero time. *)
Theorem arrival_time_needs_duration_logging s request now1 now2 st :
  (requestIdOf s now1 = requestIdOf s now2 ->
   ServeHTTP s request now1 st = ServeHTTP s request now2 st)
  /\ let s' := DebugEnableLogRequestDuration s false in
     ServeHTTP s' request now1 st = ServeHTTP s' request now2 st
     /\ requestIdOf (DebugEnableLogRequestIdentifier s' true) now1
        = generateRequestId zeroTime
     /\ requestIdOf (DebugEnableLogRequestIdentifier s' false) now1
        = "o"%string.
Proof.
  assert (Hid : forall s0 : Server,
            requestIdOf s0 now1 = requestIdOf s0 now2 ->
            ServeHTTP s0 request now1 st = ServeHTTP s0 request now2 st).
  { intros s0 Heq. unfold ServeHTTP, ServeHTTP_body, resolve. cbv zeta.
    fold (requestIdOf s0 now1). fold (requestIdOf s0 now2).
    rewrite Heq. reflexivity. }
  split; [apply Hid|].
  intros s'. split; [apply Hid; reflexivity|]. split; reflexivity.
Qed.

(** X4: a server made by [NewServer] takes no request for a
    documentation request, not even one for the empty path that equals
    its zero-value documentation URL; its request id is "o", and the
    context of an executed handler has no request id. *)
Theorem NewServer_dispatch newRouter pattern address request now w objs :
  let s := NewServer newRouter pattern address in
  let out := ServeHTTP s request now (start w objs) in
  out.1 <> ExitDocumentation
  /\ requestIdOf s now = "o"%string
  /\ forall l context,
       CallExecute l context ∈ calls out.2 -> RequestId context = None.
Proof.
  intros s out. split; [|split; [reflexivity|]].
  - intros Hx.
    destruct (ServeHTTP_cause s request now w objs) as [Hc|Hc];
      fold out in Hc; rewrite Hx in Hc.
    + discriminate Hc.
    + destruct Hc as (r & h & _ & _ & Hc). exact Hc.
  - intros l context Hin.
    apply executed_context in Hin as (_ & r & h & cs & _ & _ & _ & -> & _).
    reflexivity.
Qed.

(** *** What the handler is given *)

(** X5: the context of an executed handler holds the route variables the
    router has returned for the path, the headers of the request, the body
    as it was read, the content types the endpoint has returned with the
    handler, and the request id when the logging of identifiers is on;
    the object executed is the one of the handler the endpoint has
    returned. *)
Theorem handler_context s request now w objs l context :
  let out := ServeHTTP s request now (start w objs) in
  CallExecute l context ∈ calls out.2 ->
  exists n e cp ap h,
    negotiable s request n (RouteVariables context) e cp ap
    /\ FindMatchingResource e (Method request) cp ap
       = (Some h, ContentTypeIn context, ContentTypeOut context)
    /\ l = Implementation h
    /\ Header context = reqHeader request
    /\ reqBody request = (default ""%string (ctxBody context), None)
    /\ is_Some (ctxBody context)
    /\ RequestId context
       = if debugEnableLogRequestIdentifier s
         then Some (requestIdOf s now) else None.
Proof.
  intros out Hin.
  pose proof (executed_context _ _ _ _ _ _ _ Hin)
    as (Hx & r & h & cs & Hm & Hh & -> & -> & _).
  fold out in Hx.
  assert (Hbody : (reqBody request).2 = None).
  { destruct (ServeHTTP_cause s request now w objs) as [Hc|Hc];
      fold out in Hc.
    - destruct Hx as [Hx|[Hx|Hx]]; rewrite Hx in Hc; destruct Hc.
    - destruct Hc as (r' & h' & _ & _ & Hc).
      destruct Hx as [Hx|[Hx|Hx]]; rewrite Hx in Hc; simpl in Hc;
        destruct Hc as ((Hb & _) & _); exact Hb. }
  destruct Hm as (n & e & cp & ap & Hneg & _ & Hmatch & _ & Hrid).
  rewrite Hh in Hmatch.
  exists n, e, cp, ap, h. simpl. rewrite Hrid.
  split; [exact Hneg|]. split; [exact Hmatch|]. split; [reflexivity|].
  split; [reflexivity|].
  split; [destruct (reqBody request); simpl in *; congruence|].
  split; [eauto | reflexivity].
Qed.

Lemma delivered_lookup_other q entries acc k :
  k ∉ entries.*1 -> delivered q entries acc !! k = acc !! k.
Proof.
  unfold delivered. revert acc.
  induction entries as [|[k' qp'] entries IH]; intros acc Hnot; [reflexivity|].
  simpl in *. apply not_elem_of_cons in Hnot as [Hne Hnot].
  rewrite IH by exact Hnot. apply lookup_insert_ne. congruence.
Qed.

(** X6: the map of query parameters of an executed handler has exactly
    the keys the handler declares: under a declared key the value of the
    query string, or the default when [Get] gives the empty string; keys
    of the query string that the handler does not declare are not passed
    on.  The map does not depend on the order in which the loop visits
    the declared parameters. *)
Theorem handler_query_parameters s request now w objs l context :
  let out := ServeHTTP s request now (start w objs) in
  CallExecute l context ∈ calls out.2 ->
  exists r h,
    matched s request now r /\ matchingResource r = Some h
    /\ l = Implementation h
    /\ (forall k,
         QueryParameters context !! k
         = (fun qp => effective (URL_Query request) k qp)
             <$> rhQueryParameters h !! k)
    /\ dom (QueryParameters context) = dom (rhQueryParameters h).
Proof.
  intros out Hin.
  apply executed_context in Hin as (_ & r & h & cs & Hm & Hh & -> & -> & _).
  exists r, h. split; [exact Hm|]. split; [exact Hh|]. split; [reflexivity|].
  assert (Hlook : forall k,
            delivered (URL_Query request) (rangeOrder (rhQueryParameters h)) ∅
              !! k
            = (fun qp => effective (URL_Query request) k qp)
                <$> rhQueryParameters h !! k).
  { intros k. destruct (rhQueryParameters h !! k) as [qp|] eqn:Hk; simpl.
    - apply delivered_lookup; [apply rangeOrder_NoDup|].
      apply rangeOrder_elem_of. exact Hk.
    - rewrite delivered_lookup_other; [apply lookup_empty|].
      intros Hel. apply list_elem_of_fmap in Hel as ([k' qp] & -> & Hel).
      apply rangeOrder_elem_of in Hel. simpl in Hk. congruence. }
  split; [exact Hlook|].
  simpl. apply set_eq. intros k. rewrite !elem_of_dom, Hlook.
  destruct (rhQueryParameters h !! k); simpl; split; intros [? ?]; eauto;
    discriminate.
Qed.

(** X7: [Execute] is called exactly when the request passes every check
    of the dispatcher: router, endpoint, both headers, a handler for the
    method and the content types, a body read without error that is empty
    where the handler takes no input, every declared query parameter, and
    an implementation to call.  The order in which the loop visits the
    parameters does not change that. *)
Theorem executed_iff_admitted s request now w objs :
  let out := ServeHTTP s request now (start w objs) in
  (exists l context, CallExecute l context ∈ calls out.2)
  <-> exists r h, admitted s request now objs r h.
Proof.
  intros out. rewrite <- (admitted_exit s request now w objs). fold out.
  split.
  - intros (l & context & Hin).
    apply executed_context in Hin as (Hx & _). exact Hx.
  - intros Hx. pose proof Hx as Hadm.
    apply (admitted_exit s request now w objs) in Hadm
      as (r & h & Hm & Hh & _).
    destruct (matched_resolve _ _ _ _ (start w objs) Hm) as [st1 Hres].
    destruct (ServeHTTP_served_inv _ _ _ _ _ _ _ _ Hres Hh)
      as (fl & st' & Hserve & Hout & _).
    fold out in Hout.
    pose proof (serve_inv _ _ _ _ _ _ _ Hh Hserve) as (cs & Hcs & _ & Hexit).
    rewrite Hout in Hx |- *. simpl in Hx, Hexit |- *.
    destruct Hx as [Hx|[Hx|Hx]]; rewrite Hx in Hexit;
      destruct Hexit as (cs' & o & result & o' & c' & -> & _);
      eexists _, _; rewrite Hcs;
      apply elem_of_app; right; apply elem_of_cons; right;
      apply elem_of_app; right; apply list_elem_of_singleton; reflexivity.
Qed.

(** *** The response as it is written *)

Lemma String_length_append (a b : string) :
  String.length (a +:+ b) = (String.length a + String.length b)%nat.
Proof.
  induction a as [|c a IH]; [reflexivity|].
  change (S (String.length (a +:+ b))
          = S (String.length a + String.length b)).
  rewrite IH. reflexivity.
Qed.

Lemma String_append_nil_r (a : string) : a +:+ "" = a.
Proof.
  induction a as [|c a IH]; [reflexivity|].
  change (String c (a +:+ "") = String c a). rewrite IH. reflexivity.
Qed.

Lemma renderResourceResult_written_ok w result contentType rid :
  checkWriteHeaderCode (HttpStatus result) = true ->
  let w' := renderResourceResult w result contentType rid in
  wStatus w' = wStatus w ++ [HttpStatus result]
  /\ wBody w' = wBody w +:+ default ""%string (Body result)
  /\ bodyLength result
     = Z.of_nat (String.length (wBody w') - String.length (wBody w)).
Proof.
  intros Hcode w'. subst w'.
  split; [apply renderResourceResult_status; exact Hcode|].
  unfold renderResourceResult, WriteHeader, bodyLength. rewrite Hcode.
  destruct (Body result) as [b|] eqn:Hb; simpl.
  - rewrite Len_pos. case_bool_decide as Hempty; simpl.
    + subst b. rewrite String_append_nil_r, Nat.sub_diag.
      split; reflexivity.
    + rewrite String_length_append.
      replace (String.length (wBody w) + String.length b
               - String.length (wBody w))%nat
        with (String.length b) by lia.
      split; reflexivity.
  - rewrite String_append_nil_r, Nat.sub_diag. split; reflexivity.
Qed.

(** X11: [renderResourceResult] sets Content-Length to the byte length of
    the result body, replacing any earlier value, before it calls
    [WriteHeader], and touches no header but Content-Length and
    Content-Type.  For a status of three digits it then writes one
    status, the one of the result, and hands the bytes of the result
    body to the writer, nothing for a nil or empty body, so that
    Content-Length counts the bytes handed over.  For a status that
    [WriteHeader] refuses (line 341) the call panics with the headers
    set: no status is written and no byte is handed over, whatever
    Content-Length announces. *)
Theorem renderResourceResult_written w result contentType rid :
  let w' := renderResourceResult w result contentType rid in
  wHeader w' !! "Content-Length"%string = Some [Itoa (bodyLength result)]
  /\ (forall key,
        key <> "Content-Length"%string -> key <> "Content-Type"%string ->
        wHeader w' !! key = wHeader w !! key)
  /\ if checkWriteHeaderCode (HttpStatus result)
     then wStatus w' = wStatus w ++ [HttpStatus result]
          /\ wBody w' = wBody w +:+ default ""%string (Body result)
          /\ bodyLength result
             = Z.of_nat (String.length (wBody w') - String.length (wBody w))
     else wStatus w' = wStatus w /\ wBody w' = wBody w.
Proof.
  intros w'. subst w'.
  split; [|split].
  - rewrite renderResourceResult_wHeader. unfold Add, Set_.
    destruct (0 <? bodyLength result).
    + rewrite lookup_insert_ne by discriminate. apply lookup_insert_eq.
    + apply lookup_insert_eq.
  - intros key Hcl Hct. rewrite renderResourceResult_wHeader.
    unfold Add, Set_.
    destruct (0 <? bodyLength result);
      rewrite !lookup_insert_ne by congruence; reflexivity.
  - destruct (checkWriteHeaderCode (HttpStatus result)) eqn:Hcode.
    + apply renderResourceResult_written_ok. exact Hcode.
    + apply renderResourceResult_panic. exact Hcode.
Qed.

(** *** What an admitted request gets *)

(** X8: a request that passes every check is answered with the result of
    the handler, rendered with the content type the context holds after
    the execution, and the object of the handler is left as the execution
    leaves it.  The status and the body of the result go to the writer
    when the status has three digits; a status that [WriteHeader] refuses
    ends the call in the panic of line 341, after the execution, with the
    headers set and neither status nor body written.  When the handler
    leaves the context without an output content type, the dereference
    at line 307 panics after the execution and nothing is written. *)
Theorem admitted_request_served s request now w objs r h o result o' context' :
  admitted s request now objs r h ->
  objs !! Implementation h = Some o ->
  Execute o
    (contextOf s request r
       (delivered (URL_Query request) (rangeOrder (rhQueryParameters h)) ∅))
  = (result, o', context') ->
  let out := ServeHTTP s request now (start w objs) in
  objects out.2 = <[Implementation h := o']> objs
  /\ match ContentTypeOut context' with
     | Some contentType =>
         writer out.2
         = renderResourceResult w result contentType (requestIdOf s now)
         /\ if checkWriteHeaderCode (HttpStatus result)
            then out.1 = ExitServed
                 /\ wStatus (writer out.2) = wStatus w ++ [HttpStatus result]
                 /\ wBody (writer out.2)
                    = wBody w +:+ default ""%string (Body result)
            else out.1 = ExitWriteHeaderPanic
                 /\ wStatus (writer out.2) = wStatus w
                 /\ wBody (writer out.2) = wBody w
     | None => out.1 = ExitNilContentTypeOut /\ writer out.2 = w
     end.
Proof.
  intros Hadm Ho Hexec out.
  assert (Hx : out.1 = ExitServed \/ out.1 = ExitNilContentTypeOut
               \/ out.1 = ExitWriteHeaderPanic).
  { apply (admitted_exit s request now w objs). eauto. }
  destruct Hadm as (Hm & Hh & _).
  destruct (matched_resolve _ _ _ _ (start w objs) Hm) as [st1 Hres].
  destruct (ServeHTTP_served_inv _ _ _ _ _ _ _ _ Hres Hh)
    as (fl & st' & Hserve & Hout & Hrid).
  fold out in Hout. rewrite Hout in Hx |- *. simpl in Hx |- *.
  pose proof (serve_inv _ _ _ _ _ _ _ Hh Hserve) as (cs & _ & _ & Hexit).
  simpl in Hexit. rewrite Hrid in Hexit.
  destruct Hx as [Hx|[Hx|Hx]]; rewrite Hx in Hexit |- *;
    destruct Hexit
      as (cs' & o2 & result2 & o2' & c2' & _ & _ & _ & Ho2 & Hexec2 & Hobj & Hw);
    rewrite Ho in Ho2; injection Ho2 as <-;
    rewrite Hexec in Hexec2; injection Hexec2 as <- <- <-;
    (split; [exact Hobj|]).
  - destruct Hw as (ct & -> & Hw & Hcode). rewrite Hcode.
    split; [exact Hw|]. split; [reflexivity|]. rewrite Hw.
    destruct (renderResourceResult_written_ok w result ct (requestIdOf s now)
                Hcode) as (Hstatus & Hbody & _).
    split; assumption.
  - destruct Hw as (-> & Hw). auto.
  - destruct Hw as (ct & -> & Hw & Hcode). rewrite Hcode.
    split; [exact Hw|]. split; [reflexivity|]. rewrite Hw.
    apply renderResourceResult_panic. exact Hcode.
Qed.


(** X10: a call executes at most one handler, and the execution is its
    last call on the collaborators: nothing is asked of the router, the
    endpoint, the parsers or the validators after it. *)
Theorem execute_is_last_call s request now w objs l1 c l2 :
  let out := ServeHTTP s request now (start w objs) in
  calls out.2 = l1 ++ c :: l2 ->
  isExecute c = true ->
  l2 = [] /\ Forall (fun c => isExecute c = false) l1.
Proof.
  intros out Hcalls Hc.
  destruct c as [| | | | | | | | | | | |l context]; try discriminate Hc.
  assert (Hin : CallExecute l context ∈ calls out.2).
  { rewrite Hcalls. apply elem_of_app. right. left. }
  apply executed_context in Hin as (_ & r & h & cs & _ & _ & _ & _ & Hcs & Hall).
  fold out in Hcs. rewrite Hcs in Hcalls.
  destruct l2 as [|x l2 _] using rev_ind.
  - apply app_inj_tail in Hcalls as [-> _]. split; [reflexivity | exact Hall].
  - exfalso. rewrite app_comm_cons, app_assoc in Hcalls.
    apply app_inj_tail in Hcalls as [-> _].
    apply Forall_app in Hall as [_ Hall]. inversion Hall; subst. discriminate.
Qed.

(** *** The first half decides by its checks *)

Ltac open_cause H :=
  unfold negotiable, routed in H;
  repeat match type of H with
         | ex _ => let x := fresh "x" in destruct H as [x H]
         | _ /\ _ => let H' := fresh "Hc" in destruct H as [H' H];
                      try open_cause H'
         end.

Lemma resolveCause_unique s request x y :
  resolveCause s request x -> resolveCause s request y -> x = y.
Proof.
  intros Hx Hy.
  destruct x; simpl in Hx; try contradiction;
    destruct y; simpl in Hy; try contradiction; try reflexivity;
    exfalso; open_cause Hx; open_cause Hy; congruence.
Qed.

(** X12: the first half of the dispatcher ends by the first check that
    fails, in the order documentation, router error, no node, no endpoint,
    Content-Type header, Accept header, Accept element, no handler on the
    endpoint, no handler for the method and content types: a request that
    meets the condition of one of these exits leaves through it, and a
    call that ends in an exit meets the condition of that exit. *)
Theorem exit_by_cause s request now w objs x :
  let out := ServeHTTP s request now (start w objs) in
  (resolveCause s request x -> out.1 = x)
  /\ (out.1 = x ->
      resolveCause s request x
      \/ exists r h,
           matched s request now r /\ matchingResource r = Some h
           /\ serveCause request objs r h x).
Proof.
  intros out. split.
  - intros Hx.
    destruct (ServeHTTP_cause s request now w objs) as [Hc|Hc]; fold out in Hc.
    + apply (resolveCause_unique _ _ _ _ Hc Hx).
    + destruct Hc as (r & h & Hm & _). exfalso.
      apply (matched_no_cause _ _ _ _ _ Hm Hx).
  - intros <-. apply ServeHTTP_cause.
Qed.

(** *** The text of the error responses *)

Lemma resolve_message s request now st x st' :
  resolve s request now st = (Leave x, st') ->
  match x with
  | ExitDocumentation => True
  | ExitRouteError =>
      exists n rv message,
        FindNodeByRoute (router_ s) (URL_Path request) = (n, rv, Some message)
        /\ writer st'
           = errorResponse StatusBadRequest message (requestIdOf s now)
               (writer st)
  | _ =>
      exists rest,
        writer st'
        = errorResponse (exitStatus x)
            ("[" +:+ requestIdOf s now +:+ "] " +:+ rest)
            (requestIdOf s now) (writer st)
  end.
Proof.
  unfold resolve, errorResponse. fold (requestIdOf s now).
  generalize (requestIdOf s now). intros rid.
  unfold_serve. simpl. intros Hrun.
  destruct (documentationEndpointEnabled s && _) eqn:Hdoc; simpl in Hrun.
  { inversion Hrun; subst. exact I. }
  destruct (FindNodeByRoute _ _) as [[node0 rv] err] eqn:Hfind; simpl in Hrun.
  destruct err as [message|]; simpl in Hrun.
  { inversion Hrun; subst. eauto. }
  destruct node0 as [node0|]; simpl in Hrun.
  2:{ inversion Hrun; subst. simpl. eexists. reflexivity. }
  destruct (GetEndpoint node0) as [endp|] eqn:Hendp; simpl in Hrun.
  2:{ inversion Hrun; subst. simpl. eexists. reflexivity. }
  destruct (newContentTypeHeaderParser _) as [ctp err] eqn:Hct; simpl in Hrun.
  destruct err as [message|]; simpl in Hrun.
  { inversion Hrun; subst. simpl. eexists. reflexivity. }
  destruct (newAcceptHeaderParser _) as [acp err] eqn:Hac; simpl in Hrun.
  destruct err as [message|]; simpl in Hrun.
  { inversion Hrun; subst. simpl. eexists. reflexivity. }
  destruct (HasAcceptElement acp) eqn:Hhas; simpl in Hrun.
  2:{ inversion Hrun; subst. simpl. exists "No valid Accept header was given"%string.
      reflexivity. }
  case_bool_decide as Hlen; simpl in Hrun.
  { inversion Hrun; subst. simpl. eexists. reflexivity. }
  destruct (FindMatchingResource _ _ _ _) as [[mr cIn] cOut] eqn:Hmatch;
    simpl in Hrun.
  destruct mr as [mr|]; simpl in Hrun.
  2:{ inversion Hrun; subst. simpl.
      exists "No available resource for this Content-Type"%string.
      reflexivity. }
  inversion Hrun.
Qed.

Lemma serve_message s request r h st x st' :
  matchingResource r = Some h ->
  serve s request r st = (Leave x, st') ->
  match x with
  | ExitServed | ExitNilImplementation | ExitNilContentTypeOut
  | ExitWriteHeaderPanic => True
  | _ =>
      exists rest,
        writer st'
        = errorResponse (exitStatus x)
            ("[" +:+ requestId r +:+ "] " +:+ rest) (requestId r) (writer st)
  end.
Proof.
  intros Hh Hrun.
  pose proof (serve_inv _ _ _ _ _ _ _ Hh Hrun) as (cs & _ & _ & Hexit).
  simpl in Hexit.
  destruct x; try contradiction; try exact I.
  - (* the body could not be read *)
    clear Hexit. revert Hrun. unfold serve, errorResponse. unfold_serve. simpl.
    destruct (reqBody request) as [b [e|]]; simpl.
    2:{ destruct (isNil (contentTypeIn r) && (0 <? Len b)); simpl;
          [intros [=]|].
        rewrite Hh. intros Hrun. exfalso.
        destruct (checkQueryParameters _ _ _ _ _) as [[m|x] st1] eqn:Hloop.
        - unfold execute in Hrun.
          destruct (objects st1 !! Implementation h) as [o|];
            [|inversion Hrun].
          destruct (Execute o _) as [[result o'] context'].
          destruct (ContentTypeOut context');
            [destruct (checkWriteHeaderCode (HttpStatus result))|];
            inversion Hrun.
        - apply checkQueryParameters_inv in Hloop
            as (_ & _ & message & k & qp & _ & _ & Hrej).
          inversion Hrun; subst.
          destruct Hrej as [(? & _)|[(? & _)|(? & _)]]; discriminate. }
    intros Hrun; inversion Hrun; subst.
    exists "Could not read request body"%string. reflexivity.
  - (* a body for a handler that takes none *)
    clear Hexit. revert Hrun. unfold serve, errorResponse. unfold_serve. simpl.
    destruct (reqBody request) as [b [e|]]; simpl; [intros [=]|].
    destruct (isNil (contentTypeIn r) && (0 <? Len b)); simpl.
    { intros Hrun; inversion Hrun; subst.
      exists "Body is not allowed for this resource"%string. reflexivity. }
    rewrite Hh. intros Hrun. exfalso.
    destruct (checkQueryParameters _ _ _ _ _) as [[m|x] st1] eqn:Hloop.
    + unfold execute in Hrun.
      destruct (objects st1 !! Implementation h) as [o|];
        [|inversion Hrun].
      destruct (Execute o _) as [[result o'] context'].
      destruct (ContentTypeOut context');
        [destruct (checkWriteHeaderCode (HttpStatus result))|];
        inversion Hrun.
    + apply checkQueryParameters_inv in Hloop
        as (_ & _ & message & k & qp & _ & _ & Hrej).
      inversion Hrun; subst.
      destruct Hrej as [(? & _)|[(? & _)|(? & _)]]; discriminate.
  - destruct Hexit as (_ & _ & message & k & qp & _ & -> & Hrej).
    destruct Hrej as [(_ & _ & _ & ->)|[(? & _)|(? & _)]]; try discriminate.
    eexists. reflexivity.
  - destruct Hexit as (_ & _ & message & k & qp & _ & -> & Hrej).
    destruct Hrej as [(? & _)|[(_ & _ & _ & ->)|(? & _)]]; try discriminate.
    eexists. reflexivity.
  - destruct Hexit as (_ & _ & message & k & qp & _ & -> & Hrej).
    destruct Hrej as [(? & _)|[(? & _)|(_ & _ & v & _ & _ & ->)]];
      try discriminate.
    eexists. reflexivity.
Qed.

Lemma exitStatus_valid x : checkWriteHeaderCode (exitStatus x) = true.
Proof. destruct x; reflexivity. Qed.

Lemma errorResponse_written status message rid w :
  checkWriteHeaderCode status = true ->
  message <> ""%string ->
  let w' := errorResponse status message rid w in
  wStatus w' = wStatus w ++ [status]
  /\ wBody w' = wBody w +:+ message
  /\ wHeader w' !! "Content-Length"%string = Some [Itoa (Len message)]
  /\ wHeader w' !! "Content-Type"%string
     = Some (default [] (wHeader w !! "Content-Type"%string)
             ++ ["text/plain"%string]).
Proof.
  intros Hcode Hne w'. subst w'.
  split; [apply errorResponse_status; exact Hcode|].
  split; [apply errorResponse_body; assumption|].
  unfold errorResponse. rewrite renderResourceResult_wHeader.
  unfold bodyLength. simpl.
  rewrite Len_pos, bool_decide_eq_false_2 by exact Hne. simpl.
  unfold Add, Set_.
  rewrite lookup_insert_eq.
  rewrite !lookup_insert_ne by discriminate. rewrite lookup_insert_eq.
  rewrite lookup_insert_ne by discriminate. auto.
Qed.

(** X13: every error response the dispatcher words itself — all but the
    message of the router, which is passed on as it is — starts with the
    request id in brackets, is added to the body as it stands, comes with
    the status of its exit and a Content-Length of its own byte length,
    and is labelled text/plain after any Content-Type the writer already
    had. *)
Theorem error_response_names_request s request now w objs :
  let out := ServeHTTP s request now (start w objs) in
  let rid := requestIdOf s now in
  match out.1 with
  | ExitDocumentation | ExitServed | ExitNilImplementation
  | ExitNilContentTypeOut | ExitWriteHeaderPanic =>
      True
  | ExitRouteError =>
      exists n rv message,
        FindNodeByRoute (router_ s) (URL_Path request) = (n, rv, Some message)
        /\ writer out.2 = errorResponse StatusBadRequest message rid w
  | x =>
      exists rest,
        let message := "[" +:+ rid +:+ "] " +:+ rest in
        wStatus (writer out.2) = wStatus w ++ [exitStatus x]
        /\ wBody (writer out.2) = wBody w +:+ message
        /\ wHeader (writer out.2) !! "Content-Length"%string
           = Some [Itoa (Len message)]
        /\ wHeader (writer out.2) !! "Content-Type"%string
           = Some (default [] (wHeader w !! "Content-Type"%string)
                   ++ ["text/plain"%string])
  end.
Proof.
  intros out rid.
  assert (Hshape : forall x rest w',
            w' = errorResponse (exitStatus x) ("[" +:+ rid +:+ "] " +:+ rest)
                   rid w ->
            let message := "[" +:+ rid +:+ "] " +:+ rest in
            wStatus w' = wStatus w ++ [exitStatus x]
            /\ wBody w' = wBody w +:+ message
            /\ wHeader w' !! "Content-Length"%string
               = Some [Itoa (Len message)]
            /\ wHeader w' !! "Content-Type"%string
               = Some (default [] (wHeader w !! "Content-Type"%string)
                       ++ ["text/plain"%string])).
  { intros x rest w' ->.
    apply errorResponse_written; [apply exitStatus_valid | discriminate]. }
  subst out.
  destruct (resolve s request now (start w objs)) as [[r|x] st1] eqn:Hres.
  - rewrite (ServeHTTP_resolved _ _ _ _ _ _ Hres).
    pose proof (resolve_inv _ _ _ _ _ _ Hres) as Hinv.
    destruct (serve s request r st1) as [[[]|x] st2] eqn:Hserve; simpl;
      [exact I|].
    assert (Hr : exists h, matchingResource r = Some h
                           /\ requestId r = rid /\ writer st1 = w).
    { destruct Hinv as (_ & _ & Hw & _ & [h Hh] & Hrid & _). eauto. }
    destruct Hr as (h & Hh & Hrid & Hw).
    pose proof (serve_message _ _ _ _ _ _ _ Hh Hserve) as Hm.
    rewrite Hrid, Hw in Hm.
    pose proof (serve_inv _ _ _ _ _ _ _ Hh Hserve) as (cs & _ & _ & Hexit).
    simpl in Hexit.
    destruct x; try contradiction; try exact I;
      destruct Hm as (rest & Hm); exists rest; apply (Hshape _ _ _ Hm).
  - rewrite (ServeHTTP_left _ _ _ _ _ _ Hres). simpl.
    pose proof (resolve_message _ _ _ _ _ _ Hres) as Hm.
    fold rid in Hm. simpl in Hm.
    destruct x; try exact I; try exact Hm;
      destruct Hm as (rest & Hm); exists rest; apply (Hshape _ _ _ Hm).
Qed.

End Pipeline.

(** * The further properties on the sample server *)

Section PipelineRuns.
Import Sample.
#[local] Existing Instance package.

Lemma documentation_bypasses_router_witness :
  documentationEndpointEnabled (EnableDocumentationEndpoint server "/hits")
  = true
  /\ documentationEndpointUrl (EnableDocumentationEndpoint server "/hits")
     = URL_Path hitsRequest
  /\ (ServeHTTP (EnableDocumentationEndpoint server "/hits") hitsRequest tt
        (start newResponseWriter objects0)).1 = ExitDocumentation
  /\ objects (ServeHTTP (EnableDocumentationEndpoint server "/hits")
                hitsRequest tt (start newResponseWriter objects0)).2
     = objects0.
Proof.
  split; [reflexivity|]. split; [reflexivity|].
  destruct (documentation_bypasses_router
              (EnableDocumentationEndpoint server "/hits") hitsRequest tt
              newResponseWriter objects0 eq_refl eq_refl)
    as (Hexit & _ & _ & Hobj).
  split; [exact Hexit | exact Hobj].
Defined.

Lemma handler_context_witness :
  CallExecute 3%positive (contextOf server (usersRequest ["7"%string])
                   (resolved usersHandler) {[ "page"%string := "7"%string ]})
    ∈ calls (run (usersRequest ["7"%string]) objects0).2
  /\ exists h,
       (3%positive : loc) = Implementation h
       /\ FindMatchingResource [get usersHandler] "GET" ""
            ["application/json"%string]
          = (Some h, None, Some "application/json"%string).
Proof.
  assert (Hin : CallExecute 3%positive
                  (contextOf server (usersRequest ["7"%string])
                     (resolved usersHandler)
                     {[ "page"%string := "7"%string ]})
                ∈ calls (run (usersRequest ["7"%string]) objects0).2).
  { vm_compute. do 11 right. left. }
  split; [exact Hin|].
  destruct (handler_context server (usersRequest ["7"%string]) tt
              newResponseWriter objects0 _ _ Hin)
    as (n & e & cp & ap & h & Hneg & Hmatch & Hl & _).
  exists h. split; [exact Hl|].
  destruct Hneg as ((_ & Hfind) & Hendp & Hct & Hac & _).
  vm_compute in Hfind. injection Hfind as <-.
  vm_compute in Hendp. injection Hendp as <-.
  vm_compute in Hct. injection Hct as <-.
  vm_compute in Hac. injection Hac as <-.
  exact Hmatch.
Defined.

Lemma handler_query_parameters_witness :
  CallExecute 3%positive
    (contextOf server (usersRequest ["7"%string]) (resolved usersHandler)
       {[ "page"%string := "7"%string ]})
    ∈ calls (run (usersRequest ["7"%string]) objects0).2
  /\ exists h,
       (3%positive : loc) = Implementation h
       /\ ({[ "page"%string := "7"%string ]} : gmap string string)
            !! "page"%string
          = (fun qp => effective (URL_Query (usersRequest ["7"%string]))
                         "page" qp)
              <$> rhQueryParameters h !! "page"%string.
Proof.
  assert (Hin : CallExecute 3%positive
                  (contextOf server (usersRequest ["7"%string])
                     (resolved usersHandler)
                     {[ "page"%string := "7"%string ]})
                ∈ calls (run (usersRequest ["7"%string]) objects0).2).
  { vm_compute. do 11 right. left. }
  split; [exact Hin|].
  destruct (handler_query_parameters server (usersRequest ["7"%string]) tt
              newResponseWriter objects0 _ _ Hin)
    as (r & h & _ & _ & Hl & Hlook & _).
  exists h. split; [exact Hl | exact (Hlook "page"%string)].
Defined.

Lemma admitted_request_served_witness :
  admitted server (usersRequest ["7"%string]) tt objects0
    (resolved usersHandler) usersHandler
  /\ objects0 !! Implementation usersHandler = Some 0
  /\ objects (run (usersRequest ["7"%string]) objects0).2
     = <[Implementation usersHandler := 1]> objects0
  /\ (run (usersRequest ["7"%string]) objects0).1 = ExitServed
  /\ wStatus (writer (run (usersRequest ["7"%string]) objects0).2) = [200]
  /\ wBody (writer (run (usersRequest ["7"%string]) objects0).2)
     = "0"%string
  /\ @admitted Faulty.package Faulty.server hitsRequest tt objects0
       (resolved hitsHandler) hitsHandler
  /\ objects (Faulty.run hitsRequest objects0).2
     = <[Implementation hitsHandler := 1]> objects0
  /\ (Faulty.run hitsRequest objects0).1 = ExitWriteHeaderPanic
  /\ wStatus (writer (Faulty.run hitsRequest objects0).2) = []
  /\ wBody (writer (Faulty.run hitsRequest objects0).2) = ""%string.
Proof.
  assert (Hadm : admitted server (usersRequest ["7"%string]) tt objects0
                   (resolved usersHandler) usersHandler).
  { split.
    { exists (Some [get usersHandler]), [get usersHandler], ""%string,
        ["application/json"%string].
      split.
      { split; [split; [reflexivity | vm_compute; reflexivity]|].
        split; [reflexivity|]. split; [vm_compute; reflexivity|].
        split; vm_compute; reflexivity. }
      split; [discriminate|]. split; [vm_compute; reflexivity|].
      split; [eexists; reflexivity | reflexivity]. }
    split; [reflexivity|].
    split; [split; [reflexivity | intros _; reflexivity]|].
    split; [|eexists; vm_compute; reflexivity].
    intros k qp Hk. unfold usersHandler in Hk. simpl in Hk.
    apply lookup_singleton_Some in Hk as [<- <-].
    vm_compute. split; reflexivity. }
  assert (Ho : objects0 !! Implementation usersHandler = Some 0)
    by (vm_compute; reflexivity).
  split; [exact Hadm|]. split; [exact Ho|].
  destruct (admitted_request_served server (usersRequest ["7"%string]) tt
              newResponseWriter objects0 (resolved usersHandler) usersHandler
              0 _ _ _ Hadm Ho eq_refl)
    as (Hobj & _ & Hexit & Hstatus & Hwritten).
  split; [exact Hobj|]. split; [exact Hexit|].
  split; [exact Hstatus|]. split; [exact Hwritten|].
  assert (Hadm0 : @admitted Faulty.package Faulty.server hitsRequest tt
                    objects0 (resolved hitsHandler) hitsHandler).
  { split.
    { exists (Some [get hitsHandler]), [get hitsHandler], ""%string,
        ["application/json"%string].
      split.
      { split; [split; [reflexivity | vm_compute; reflexivity]|].
        split; [reflexivity|]. split; [vm_compute; reflexivity|].
        split; vm_compute; reflexivity. }
      split; [discriminate|]. split; [vm_compute; reflexivity|].
      split; [eexists; reflexivity | reflexivity]. }
    split; [reflexivity|].
    split; [split; [reflexivity | intros _; reflexivity]|].
    split; [|eexists; vm_compute; reflexivity].
    intros k qp Hk. unfold hitsHandler in Hk. simpl in Hk.
    rewrite lookup_empty in Hk. discriminate Hk. }
  assert (Ho0 : objects0 !! Implementation hitsHandler = Some 0)
    by (vm_compute; reflexivity).
  split; [exact Hadm0|].
  destruct (@admitted_request_served Faulty.package Faulty.server hitsRequest
              tt newResponseWriter objects0 (resolved hitsHandler) hitsHandler
              0 _ _ _ Hadm0 Ho0 eq_refl)
    as (Hobj0 & _ & Hexit0 & Hstatus0 & Hwritten0).
  split; [exact Hobj0|]. split; [exact Hexit0|].
  split; [exact Hstatus0 | exact Hwritten0].
Defined.


Lemma execute_is_last_call_witness :
  calls (run hitsRequest objects0).2
  = (resolveCalls hitsRequest ++ [CallReadAll])
    ++ CallExecute (Implementation hitsHandler)
         (contextOf server hitsRequest (resolved hitsHandler) ∅) :: []
  /\ isExecute (CallExecute (Implementation hitsHandler)
                  (contextOf server hitsRequest (resolved hitsHandler) ∅))
     = true
  /\ Forall (fun c => isExecute c = false)
       (resolveCalls hitsRequest ++ [CallReadAll]).
Proof.
  assert (Hcalls : calls (run hitsRequest objects0).2
                   = (resolveCalls hitsRequest ++ [CallReadAll])
                     ++ CallExecute (Implementation hitsHandler)
                          (contextOf server hitsRequest
                             (resolved hitsHandler) ∅) :: [])
    by (vm_compute; reflexivity).
  split; [exact Hcalls|]. split; [reflexivity|].
  exact (proj2 (execute_is_last_call server hitsRequest tt newResponseWriter
                  objects0 _ _ _ Hcalls eq_refl)).
Defined.

End PipelineRuns.
